(** * A static file server with CORS headers: [frontend/public/server.py]

    The script defines [CORSRequestHandler], a subclass of the Python
    standard library's [http.server.SimpleHTTPRequestHandler] that overrides
    [end_headers] and adds [do_OPTIONS], and a main block that changes the
    working directory to the script's directory and serves on port 3012.

    The handler's behaviour is the behaviour of the inherited methods with the
    override in place, so the inherited methods ([send_response],
    [send_header], [send_error], [send_head], [translate_path], ... of
    CPython 3.11's [Lib/http/server.py] and the [posixpath] functions they
    call) are embedded next to the two methods of the script. Methods that
    call [self.end_headers()] take the virtual method as a parameter, and the
    subclass ties the knot with its override. *)

From Stdlib Require Import String Ascii List ZArith NArith Bool Lia.
From stdpp Require Import base option list strings gmap pretty.

Local Open Scope string_scope.
Local Open Scope list_scope.

(** ** Python [str] methods used by the code *)

Module Str.

Definition sep : ascii := "/"%char.

(** [s.startswith(p)] *)
Fixpoint startswith (s p : string) {struct p} : bool :=
  match p with
  | EmptyString => true
  | String b p' =>
      match s with
      | EmptyString => false
      | String a s' => Ascii.eqb a b && startswith s' p'
      end
  end.

(** [s.endswith(p)] *)
Fixpoint endswith (s p : string) : bool :=
  String.eqb s p ||
  match s with
  | EmptyString => false
  | String _ s' => endswith s' p
  end.

(** [s.split(c, 1)[0]]: the part of [s] before the first [c]. *)
Fixpoint before_first (c : ascii) (s : string) : string :=
  match s with
  | EmptyString => EmptyString
  | String a s' => if Ascii.eqb a c then EmptyString else String a (before_first c s')
  end.

(** [s.split(c)] *)
Fixpoint split (c : ascii) (s : string) : list string :=
  match s with
  | EmptyString => [EmptyString]
  | String a s' =>
      if Ascii.eqb a c then EmptyString :: split c s'
      else match split c s' with
           | w :: ws => String a w :: ws
           | [] => [String a EmptyString]
           end
  end.

(** [c.join(l)] *)
Definition join (c : string) (l : list string) : string := String.concat c l.

(** [str.isspace] on the code points below 256 (a request line is decoded
    as iso-8859-1). *)
Definition isspace (a : ascii) : bool :=
  let n := N_of_ascii a in
  ((9 <=? n) && (n <=? 13) || (28 <=? n) && (n <=? 32) || (n =? 133) || (n =? 160))%N.

(** [s.rstrip(chars)], the characters to strip given as a predicate. *)
Fixpoint rstrip_by (p : ascii -> bool) (s : string) : string :=
  match s with
  | EmptyString => EmptyString
  | String a s' =>
      match rstrip_by p s' with
      | EmptyString => if p a then EmptyString else String a EmptyString
      | r => String a r
      end
  end.

(** [s.rstrip()] *)
Definition rstrip : string -> string := rstrip_by isspace.

(** [s[: s.rfind('/') + 1]] *)
Fixpoint upto_last_sep (s : string) : string :=
  match s with
  | EmptyString => EmptyString
  | String a s' =>
      match upto_last_sep s' with
      | EmptyString => if Ascii.eqb a sep then String a EmptyString else EmptyString
      | r => String a r
      end
  end.

(** [s == '/' * len(s)] *)
Fixpoint all_sep (s : string) : bool :=
  match s with
  | EmptyString => true
  | String a s' => Ascii.eqb a sep && all_sep s'
  end.

(** ['/' in s] *)
Fixpoint has_sep (s : string) : bool :=
  match s with
  | EmptyString => false
  | String a s' => Ascii.eqb a sep || has_sep s'
  end.

(** [str.lower] on the code points below 256. *)
Definition lower_char (a : ascii) : ascii :=
  let n := N_of_ascii a in
  if ((65 <=? n) && (n <=? 90) || (192 <=? n) && (n <=? 222) && negb (n =? 215))%N
  then ascii_of_N (n + 32) else a.

Fixpoint lower (s : string) : string :=
  match s with
  | EmptyString => EmptyString
  | String a s' => String (lower_char a) (lower s')
  end.

(** [s.replace(c, by)] for a one-character pattern. *)
Fixpoint replace (c : ascii) (by_ : string) (s : string) : string :=
  match s with
  | EmptyString => EmptyString
  | String a s' => (if Ascii.eqb a c then by_ else String a EmptyString) +:+ replace c by_ s'
  end.

(** [str(n)] for a non-negative integer. *)
Definition of_N (n : N) : string := pretty n.

(** [s.encode('UTF-8')] for a string of code points below 256. *)
Fixpoint utf8 (s : string) : string :=
  match s with
  | EmptyString => EmptyString
  | String a s' =>
      let n := N_of_ascii a in
      if (n <? 128)%N then String a (utf8 s')
      else String (ascii_of_N (192 + n / 64)) (String (ascii_of_N (128 + n mod 64)) (utf8 s'))
  end.

(** ['\0' in s] *)
Fixpoint has_nul (s : string) : bool :=
  match s with
  | EmptyString => false
  | String a s' => Ascii.eqb a Ascii.zero || has_nul s'
  end.

(** The rest of the block that already holds [filled] bytes, and the blocks
    after it, when [s] is cut into blocks of [length] bytes. *)
Fixpoint blocks_go (length filled : N) (s : string) : string * list string :=
  match s with
  | EmptyString => (EmptyString, [])
  | String a s' =>
      if (filled <? length)%N then
        let '(buf, rest) := blocks_go length (filled + 1) s' in (String a buf, rest)
      else
        let '(buf, rest) := blocks_go length 1 s' in (EmptyString, String a buf :: rest)
  end.

(** What [read(length)] returns, call after call, on a file object that holds
    [s], up to the empty result that ends the reading: the blocks of [length]
    bytes of [s], the last one with what is left, and no block for an empty
    [s]. *)
Definition blocks (length : N) (s : string) : list string :=
  match s with
  | EmptyString => []
  | _ => let '(buf, rest) := blocks_go length 0 s in buf :: rest
  end.

End Str.

(** ** [posixpath] *)

Module posixpath.

(** [posixpath.join(a, b)] *)
Definition join (a b : string) : string :=
  if Str.startswith b "/" then b
  else if String.eqb a "" || Str.endswith a "/" then a +:+ b
  else a +:+ "/" +:+ b.

(** [posixpath.dirname(p)] *)
Definition dirname (p : string) : string :=
  let head := Str.upto_last_sep p in
  if negb (String.eqb head "") && negb (Str.all_sep head)
  then Str.rstrip_by (fun a => Ascii.eqb a Str.sep) head
  else head.

(** [posixpath.isabs(s)] *)
Definition isabs (s : string) : bool := Str.startswith s "/".

(** The loop of [normpath] over the components, [new_comps] kept in
    reverse. *)
Fixpoint normpath_comps (initial_slashes : bool) (comps new_comps : list string)
  : list string :=
  match comps with
  | [] => rev new_comps
  | comp :: comps' =>
      if String.eqb comp "" || String.eqb comp "." then
        normpath_comps initial_slashes comps' new_comps
      else if negb (String.eqb comp "..")
              || (negb initial_slashes && match new_comps with [] => true | _ => false end)
              || match new_comps with last :: _ => String.eqb last ".." | [] => false end
      then normpath_comps initial_slashes comps' (comp :: new_comps)
      else normpath_comps initial_slashes comps' (tl new_comps)
  end.

(** [posixpath.normpath(path)] *)
Definition normpath (path : string) : string :=
  if String.eqb path "" then "."
  else
    let initial_slashes : nat :=
      if Str.startswith path "/" then
        if Str.startswith path "//" && negb (Str.startswith path "///") then 2 else 1
      else 0 in
    let comps := normpath_comps (negb (Nat.eqb initial_slashes 0)) (Str.split Str.sep path) [] in
    let path := Str.join "/" comps in
    let path := String.concat "" (repeat "/" initial_slashes) +:+ path in
    if String.eqb path "" then "." else path.

(** [posixpath.abspath(path)], [os.getcwd()] given as [cwd]. *)
Definition abspath (cwd path : string) : string :=
  normpath (if isabs path then path else join cwd path).

End posixpath.

(** ** The environment of a request *)

(** What [urllib.parse.urlsplit] returns. *)
Record SplitResult := {
  scheme : string; netloc : string; url_path : string; query : string; fragment : string
}.

(** Pure functions of the standard library that the handler calls and whose
    text processing is not modelled; every statement below holds for all of
    them. *)
Record Lib := {
  unquote : string -> string;             (* urllib.parse.unquote, as translate_path calls it *)
  urlsplit : string -> SplitResult;       (* urllib.parse.urlsplit, where it returns *)
  urlunsplit : SplitResult -> string;     (* urllib.parse.urlunsplit *)
  guess_type : string -> string;          (* SimpleHTTPRequestHandler.guess_type (mimetypes) *)
  formatdate : Z -> string;               (* email.utils.formatdate(t, usegmt=True) *)
  parsedate_utc : string -> option Z;     (* email.utils.parsedate_to_datetime: the instant,
                                             when the value is well formed and its zone is
                                             UTC or absent; None otherwise *)
  repr : string -> string;                (* the %r conversion of a str *)
  sys_version : string;                   (* "Python/" + sys.version.split()[0] *)
  filesystemencoding : string;            (* sys.getfilesystemencoding() *)
  listing_page : string -> string -> list (string * bool * bool) -> option string
                                          (* the bytes [encoded] that list_directory builds
                                             from self.path, from its argument path (which it
                                             unquotes instead when unquoting self.path raises
                                             UnicodeDecodeError) and from the directory
                                             entries, each with its isdir and islink flags;
                                             None when the encoding of the page raises
                                             UnicodeEncodeError *)
}.

(** What a path names on the file system at the time of the request; the
    modification time is in whole seconds, the fraction being dropped both by
    the comparison with If-Modified-Since and by Last-Modified. *)
Inductive node :=
| File (readable : bool) (contents : string) (mtime : Z)
| Dir (entries : option (list string)).     (* os.listdir, None when it raises OSError *)

Record World := {
  lookup_path : string -> option node;
  islink : string -> bool;                  (* os.path.islink *)
  time : Z;                                 (* time.time(), in whole seconds; the clock
                                               shows a time that can be formatted *)
  unencodable : string -> bool;             (* os.fsencode raises UnicodeEncodeError: the
                                               string stands for one with a lone surrogate *)
  realpath : string -> option string        (* the canonical absolute path that the directory
                                               entered under this name has now: symbolic
                                               links resolved, repeated separators removed,
                                               the new name after a rename; None when the
                                               directory is gone *)
}.

Module os.

(** How a call that touches the file system ends: it returns, it raises
    OSError, or it raises ValueError. *)
Inductive result (A : Type) :=
| Returned (a : A)
| OSError
| ValueError.
Arguments Returned {A} a.
Arguments OSError {A}.
Arguments ValueError {A}.

(** The strings that the operating system interface refuses as a path with
    ValueError, before it looks at the file system: one with an embedded NUL
    byte, or one that cannot be encoded for the file system
    (UnicodeEncodeError, a subclass of ValueError). *)
Definition invalid (W : World) (p : string) : bool := Str.has_nul p || unencodable W p.

(** [os.path.isdir] and [os.path.isfile] catch both OSError and ValueError
    and answer False. *)
Definition isdir (W : World) (p : string) : bool :=
  negb (invalid W p) && match lookup_path W p with Some (Dir _) => true | _ => false end.
Definition isfile (W : World) (p : string) : bool :=
  negb (invalid W p) && match lookup_path W p with Some (File _ _ _) => true | _ => false end.

(** [open(p, 'rb')] followed by [os.fstat] and by reading: the contents and
    the modification time. *)
Definition open_rb (W : World) (p : string) : result (string * Z) :=
  if invalid W p then ValueError
  else match lookup_path W p with
       | Some (File true data mtime) => Returned (data, mtime)
       | _ => OSError
       end.

Definition listdir (W : World) (p : string) : result (list string) :=
  if invalid W p then ValueError
  else match lookup_path W p with
       | Some (Dir (Some l)) => Returned l
       | _ => OSError
       end.

(** [os.getcwd()] in a process whose working directory was entered under
    the name [cwd]; None when it raises FileNotFoundError. *)
Definition getcwd (W : World) (cwd : string) : option string := realpath W cwd.

End os.

Module datetime.
(** [datetime.datetime.fromtimestamp(t, datetime.timezone.utc)] raises for a
    time outside the years 1 to 9999, and [email.utils.formatdate], which
    calls it, does too. *)
Definition in_range (t : Z) : bool := ((-62135596800 <=? t) && (t <=? 253402300799))%Z.
End datetime.

(** ** Requests, responses and the handler object *)

(** A request as [parse_request] leaves it in the handler's attributes, for a
    request line that carries an HTTP/1.x version: [command], [path], the
    digits after [HTTP/1.] and the header fields in order. *)
Record Request := {
  r_command : string;
  r_path : string;
  r_minor : string;
  r_headers : list (string * string)
}.

(** One entry of [_headers_buffer], before its encoding to latin-1. *)
Inductive line :=
| Status (version : string) (code : N) (message : string)   (* "%s %d %s\r\n" *)
| Field (keyword value : string)                            (* "%s: %s\r\n" *)
| Blank.                                                    (* "\r\n" *)

(** One [wfile.write]: the joined header buffer, or body bytes. The client
    is taken to read what is written: no write fails. *)
Inductive chunk :=
| Head (lines : list line)
| Body (data : string).

Definition CRLF : string := String (ascii_of_nat 13) (String (ascii_of_nat 10) "").

Definition encode_line (l : line) : string :=
  match l with
  | Status v c m => v +:+ " " +:+ Str.of_N c +:+ " " +:+ m +:+ CRLF
  | Field k v => k +:+ ": " +:+ v +:+ CRLF
  | Blank => CRLF
  end.

(** The bytes on the wire. *)
Definition encode_chunk (c : chunk) : string :=
  match c with
  | Head ls => String.concat "" (map encode_line ls)
  | Body d => d
  end.

Definition wire (out : list chunk) : string := String.concat "" (map encode_chunk out).

Record Handler := {
  command : string;
  path : string;
  request_version : string;
  headers : list (string * string);
  directory : string;                       (* set by SimpleHTTPRequestHandler.__init__ *)
  _headers_buffer : option (list line);     (* None: the attribute does not exist yet *)
  wfile : list chunk;
  close_connection : bool
}.

Definition set_buffer (b : option (list line)) (h : Handler) : Handler :=
  {| command := command h; path := path h; request_version := request_version h;
     headers := headers h; directory := directory h; _headers_buffer := b;
     wfile := wfile h; close_connection := close_connection h |}.

Definition write (c : chunk) (h : Handler) : Handler :=
  {| command := command h; path := path h; request_version := request_version h;
     headers := headers h; directory := directory h; _headers_buffer := _headers_buffer h;
     wfile := (wfile h ++ [c])%list; close_connection := close_connection h |}.

Definition set_close_connection (b : bool) (h : Handler) : Handler :=
  {| command := command h; path := path h; request_version := request_version h;
     headers := headers h; directory := directory h; _headers_buffer := _headers_buffer h;
     wfile := wfile h; close_connection := b |}.

(** [self.path], for where a local variable is named [path]. *)
Definition self_path (h : Handler) : string := path h.

(** A method that returns nothing: the handler afterwards, or None when it
    raises. *)
Definition proc := Handler -> option Handler.

Definition seq (a b : proc) : proc := fun h => a h ≫= b.
Infix ">>" := seq (at level 61, left associativity).

(** [self.headers]: an [email.message.Message], whose lookups compare the
    lowered names and return the first match. *)
Module Message.
Definition get (hs : list (string * string)) (name : string) : option string :=
  snd <$> List.find (fun kv => String.eqb (Str.lower (fst kv)) (Str.lower name)) hs.
Definition contains (hs : list (string * string)) (name : string) : bool :=
  match get hs name with Some _ => true | None => false end.
End Message.

(** ** [shutil] *)

Module shutil.

Definition COPY_BUFSIZE : N := 64 * 1024.

(** [copyfileobj(fsrc, self.wfile)]: one [write] for each block that
    [fsrc.read(COPY_BUFSIZE)] returns, until it returns no bytes. *)
Definition copyfileobj (fsrc : string) : proc := fun h =>
  Some (fold_left (fun h buf => write (Body buf) h) (Str.blocks COPY_BUFSIZE fsrc) h).

End shutil.

(** ** [http.server.BaseHTTPRequestHandler] *)

Module BaseHTTPRequestHandler.

Definition protocol_version : string := "HTTP/1.0".
Definition error_content_type : string := "text/html;charset=utf-8".

(** [responses], at the status codes that the handler sends. *)
Definition responses (code : N) : option (string * string) :=
  if (code =? 200)%N then Some ("OK", "Request fulfilled, document follows")
  else if (code =? 301)%N then Some ("Moved Permanently", "Object moved permanently -- see URI list")
  else if (code =? 304)%N then Some ("Not Modified", "Document has not changed since given time")
  else if (code =? 404)%N then Some ("Not Found", "Nothing matches the given URI")
  else if (code =? 501)%N then Some ("Not Implemented", "Server does not support this operation")
  else None.

Definition LF : string := String (ascii_of_nat 10) "".
Definition DQ : string := String (ascii_of_nat 34) "".

(** [html.escape(s, quote=False)] *)
Definition html_escape (s : string) : string :=
  Str.replace ">" "&gt;" (Str.replace "<" "&lt;" (Str.replace "&" "&amp;" s)).

(** [error_message_format % {'code': .., 'message': .., 'explain': ..}] *)
Definition error_message_format (code : N) (message explain : string) : string :=
  "<!DOCTYPE HTML>" +:+ LF +:+
  "<html lang=" +:+ DQ +:+ "en" +:+ DQ +:+ ">" +:+ LF +:+
  "    <head>" +:+ LF +:+
  "        <meta charset=" +:+ DQ +:+ "utf-8" +:+ DQ +:+ ">" +:+ LF +:+
  "        <title>Error response</title>" +:+ LF +:+
  "    </head>" +:+ LF +:+
  "    <body>" +:+ LF +:+
  "        <h1>Error response</h1>" +:+ LF +:+
  "        <p>Error code: " +:+ Str.of_N code +:+ "</p>" +:+ LF +:+
  "        <p>Message: " +:+ message +:+ ".</p>" +:+ LF +:+
  "        <p>Error code explanation: " +:+ Str.of_N code +:+ " - " +:+ explain +:+ ".</p>" +:+ LF +:+
  "    </body>" +:+ LF +:+
  "</html>" +:+ LF.

(** The guard [self.request_version != 'HTTP/0.9']. *)
Definition has_headers (h : Handler) : bool := negb (String.eqb (request_version h) "HTTP/0.9").

(** [self._headers_buffer.append(l)], after
    [if not hasattr(self, '_headers_buffer'): self._headers_buffer = []]. *)
Definition buffer_append (l : line) (h : Handler) : Handler :=
  set_buffer (Some (default [] (_headers_buffer h) ++ [l])%list) h.

Definition send_response_only (code : N) (message : option string) : proc := fun h =>
  if has_headers h then
    let message :=
      match message with
      | Some m => m
      | None => match responses code with Some (phrase, _) => phrase | None => "" end
      end in
    Some (buffer_append (Status protocol_version code message) h)
  else Some h.

Definition send_header (keyword value : string) : proc := fun h =>
  let h := if has_headers h then buffer_append (Field keyword value) h else h in
  if String.eqb (Str.lower keyword) "connection" then
    if String.eqb (Str.lower value) "close" then Some (set_close_connection true h)
    else if String.eqb (Str.lower value) "keep-alive" then Some (set_close_connection false h)
    else Some h
  else Some h.

Definition flush_headers : proc := fun h =>
  match _headers_buffer h with
  | Some b => Some (set_buffer (Some []) (write (Head b) h))
  | None => Some h
  end.

(** [end_headers] of the base class; appending to a buffer that does not
    exist raises AttributeError. *)
Definition end_headers : proc := fun h =>
  if has_headers h then
    match _headers_buffer h with
    | Some b => flush_headers (set_buffer (Some (b ++ [Blank])%list) h)
    | None => None
    end
  else Some h.

Section methods.
Context (L : Lib) (W : World).
(** The class attribute [server_version] and the methods that subclasses
    override, as the instance sees them. *)
Variable server_version : string.
Variable self_end_headers : proc.

Definition version_string : string := server_version +:+ " " +:+ sys_version L.

Definition date_time_string (timestamp : option Z) : string :=
  formatdate L (default (time W) timestamp).

(** [log_request] writes to [sys.stderr] only and is left out. *)
Definition send_response (code : N) (message : option string) : proc :=
  send_response_only code message
  >> send_header "Server" version_string
  >> send_header "Date" (date_time_string None).

Definition send_error (code : N) (message explain : option string) : proc :=
  let '(shortmsg, longmsg) := default ("???", "???") (responses code) in
  let message := default shortmsg message in
  let explain := default longmsg explain in
  let body :=
    if (200 <=? code)%N && negb ((code =? 204)%N || (code =? 205)%N || (code =? 304)%N)
    then Some (Str.utf8 (error_message_format code (html_escape message) (html_escape explain)))
    else None in
  send_response code (Some message)
  >> send_header "Connection" "close"
  >> match body with
     | Some b => send_header "Content-Type" error_content_type
                 >> send_header "Content-Length" (Str.of_N (N.of_nat (String.length b)))
     | None => Some
     end
  >> self_end_headers
  >> fun h =>
       match body with
       | Some b =>
           if negb (String.eqb (command h) "HEAD") && negb (String.eqb b "")
           then Some (write (Body b) h) else Some h
       | None => Some h
       end.

(** [handle_one_request] from the point where [parse_request] has
    succeeded; [attrs] is what [hasattr] and [getattr] see of the
    instance under the names that start with [do_]. *)
Definition handle_one_request (attrs : gmap string proc) : proc := fun h =>
  let mname := "do_" +:+ command h in
  match attrs !! mname with
  | None =>
      send_error 501 (Some ("Unsupported method (" +:+ repr L (command h) +:+ ")")) None h
  | Some method => method h
  end.

End methods.

End BaseHTTPRequestHandler.

(** ** [http.server.SimpleHTTPRequestHandler] *)

Module SimpleHTTPRequestHandler.

Definition server_version : string := "SimpleHTTP/0.6".

Section methods.
Context (L : Lib) (W : World).
Variable self_end_headers : proc.

Definition send_response := BaseHTTPRequestHandler.send_response L W server_version.
Definition send_error :=
  BaseHTTPRequestHandler.send_error L W server_version self_end_headers.
Definition send_header := BaseHTTPRequestHandler.send_header.

(** The test of [translate_path]'s loop for a component that is skipped:
    [os.path.dirname(word) or word in (os.curdir, os.pardir)]. *)
Definition not_simple (word : string) : bool :=
  negb (String.eqb (posixpath.dirname word) "") || String.eqb word "." || String.eqb word "..".

Definition translate_path (directory path : string) : string :=
  let path := Str.before_first "?" path in
  let path := Str.before_first "#" path in
  let trailing_slash := Str.endswith (Str.rstrip path) "/" in
  let path := unquote L path in
  let path := posixpath.normpath path in
  let words := Str.split Str.sep path in
  let words := List.filter (fun w => negb (String.eqb w "")) words in
  let path :=
    fold_left (fun path word => if not_simple word then path else posixpath.join path word)
              words directory in
  if trailing_slash then path +:+ "/" else path.

(** A method that returns a file object or None: the bytes that the file
    object holds. *)
Definition returning (A : Type) := Handler -> option (A * Handler).

Definition ret_none (m : proc) : returning (option string) :=
  fun h => m h ≫= fun h' => Some (None, h').

(** Only OSError is caught around [os.listdir]; the page is built and
    encoded before anything is sent. *)
Definition list_directory (path : string) : returning (option string) := fun h =>
  match os.listdir W path with
  | os.OSError => ret_none (send_error 404 (Some "No permission to list directory") None) h
  | os.ValueError => None
  | os.Returned list =>
      let entries :=
        map (fun name =>
               let fullname := posixpath.join path name in
               (name, os.isdir W fullname, islink W fullname)) list in
      match listing_page L (self_path h) path entries with
      | None => None
      | Some encoded =>
          (send_response 200 None
           >> send_header "Content-type" ("text/html; charset=" +:+ filesystemencoding L)
           >> send_header "Content-Length" (Str.of_N (N.of_nat (String.length encoded)))
           >> self_end_headers) h ≫= fun h' => Some (Some encoded, h')
      end
  end.

(** The test of [send_head] for using the browser's cache: an
    If-Modified-Since field and no If-None-Match field, a date that
    parses with zone UTC or none, and a modification time that, with its
    fraction of a second dropped, is not after it. *)
Definition not_modified (headers : list (string * string)) (st_mtime : Z) : bool :=
  if Message.contains headers "If-Modified-Since"
     && negb (Message.contains headers "If-None-Match")
  then match Message.get headers "If-Modified-Since" ≫= parsedate_utc L with
       | Some ims => (st_mtime <=? ims)%Z
       | None => false
       end
  else false.

(** [send_head] from [ctype = self.guess_type(path)] on. The [open] is
    inside [try ... except OSError]: a ValueError leaves the method, and the
    handler with it. For a modification time out of range both
    [datetime.fromtimestamp(fs.st_mtime)] in the test for 304 and
    [self.date_time_string(fs.st_mtime)] for Last-Modified raise, and one of
    them is reached before anything is written. *)
Definition send_head_file (path : string) : returning (option string) := fun h =>
  let ctype := guess_type L path in
  if Str.endswith path "/" then
    ret_none (send_error 404 (Some "File not found") None) h
  else
    match os.open_rb W path with
    | os.ValueError => None
    | os.OSError => ret_none (send_error 404 (Some "File not found") None) h
    | os.Returned (data, st_mtime) =>
        if negb (datetime.in_range st_mtime) then None
        else if not_modified (headers h) st_mtime then
          ret_none (send_response 304 None >> self_end_headers) h
        else
          (send_response 200 None
           >> send_header "Content-type" ctype
           >> send_header "Content-Length" (Str.of_N (N.of_nat (String.length data)))
           >> send_header "Last-Modified"
                (BaseHTTPRequestHandler.date_time_string L W (Some st_mtime))
           >> self_end_headers) h ≫= fun h' => Some (Some data, h')
    end.

Definition send_head : returning (option string) := fun h =>
  let path := translate_path (directory h) (self_path h) in
  if os.isdir W path then
    let parts := urlsplit L (self_path h) in
    if negb (Str.endswith (url_path parts) "/") then
      let new_parts :=
        {| scheme := scheme parts; netloc := netloc parts;
           url_path := url_path parts +:+ "/";
           query := query parts; fragment := fragment parts |} in
      let new_url := urlunsplit L new_parts in
      ret_none (send_response 301 None
                >> send_header "Location" new_url
                >> send_header "Content-Length" "0"
                >> self_end_headers) h
    else
      match List.find (os.isfile W)
              [posixpath.join path "index.html"; posixpath.join path "index.htm"] with
      | Some index => send_head_file index h
      | None => list_directory path h
      end
  else send_head_file path h.

(** [copyfile(source, outputfile)] is [shutil.copyfileobj(source, outputfile)]. *)
Definition copyfile (source : string) : proc := shutil.copyfileobj source.

Definition do_GET : proc := fun h =>
  send_head h ≫= fun '(f, h') =>
    match f with
    | Some source => copyfile source h'
    | None => Some h'
    end.

Definition do_HEAD : proc := fun h =>
  send_head h ≫= fun '(f, h') => Some h'.

(** The attributes of the class whose names start with [do_]. *)
Definition attrs : gmap string proc :=
  <["do_GET" := do_GET]> (<["do_HEAD" := do_HEAD]> ∅).

End methods.

End SimpleHTTPRequestHandler.

(** ** [server.py]: [CORSRequestHandler] *)

Module CORSRequestHandler.

Section methods.
Context (L : Lib) (W : World).

Definition send_header := BaseHTTPRequestHandler.send_header.

(** [end_headers] (server.py, lines 8-13): four calls of [send_header], then
    [super().end_headers()]. *)
Definition end_headers : proc :=
  send_header "Access-Control-Allow-Origin" "*"
  >> send_header "Access-Control-Allow-Methods" "GET, POST, OPTIONS"
  >> send_header "Access-Control-Allow-Headers" "*"
  >> send_header "Cache-Control" "no-cache, no-store, must-revalidate"
  >> BaseHTTPRequestHandler.end_headers.

Definition send_response := SimpleHTTPRequestHandler.send_response L W.

(** [do_OPTIONS] (server.py, lines 15-17). *)
Definition do_OPTIONS : proc :=
  send_response 200 (Some "ok")
  >> end_headers.

(** Attribute lookup on an instance: the class's own [do_OPTIONS], then
    the attributes inherited from [SimpleHTTPRequestHandler], whose
    calls of [self.end_headers()] reach the override. *)
Definition attrs : gmap string proc :=
  <["do_OPTIONS" := do_OPTIONS]> ∅ ∪ SimpleHTTPRequestHandler.attrs L W end_headers.

Definition handle_one_request : proc :=
  BaseHTTPRequestHandler.handle_one_request
    L W SimpleHTTPRequestHandler.server_version end_headers attrs.

End methods.

(** The instance that [socketserver] creates for a connection, with the
    attributes of a parsed request; [SimpleHTTPRequestHandler.__init__]
    sets [directory] to [os.getcwd()]. *)
Definition new (getcwd : string) (r : Request) : Handler :=
  {| command := r_command r; path := r_path r;
     request_version := "HTTP/1." +:+ r_minor r;
     headers := r_headers r; directory := getcwd;
     _headers_buffer := None; wfile := []; close_connection := true |}.

(** What the client receives for a request, None when the handler raises. *)
Definition respond (L : Lib) (W : World) (getcwd : string) (r : Request)
  : option (list chunk) :=
  wfile <$> handle_one_request L W (new getcwd r).

End CORSRequestHandler.

(** ** Reading a response *)

Definition response_status (out : list chunk) : option N :=
  match out with
  | Head (Status _ code _ :: _) :: _ => Some code
  | _ => None
  end.

Definition is_field (l : line) : option (string * string) :=
  match l with Field k v => Some (k, v) | _ => None end.

(** The header fields of the response, in order. *)
Definition response_fields (out : list chunk) : list (string * string) :=
  match out with
  | Head ls :: _ => omap is_field ls
  | _ => []
  end.

(** The bytes after the header block. *)
Definition response_body (out : list chunk) : string :=
  match out with
  | Head _ :: rest => wire rest
  | _ => wire out
  end.

(** The four fields that [CORSRequestHandler.end_headers] sends. *)
Definition cors_fields : list (string * string) :=
  [ ("Access-Control-Allow-Origin", "*");
    ("Access-Control-Allow-Methods", "GET, POST, OPTIONS");
    ("Access-Control-Allow-Headers", "*");
    ("Cache-Control", "no-cache, no-store, must-revalidate") ].

(** ** [socketserver.TCPServer] and the main block of [server.py] *)

Inductive address_family := AF_UNIX | AF_INET | AF_INET6.
Inductive socket_kind := SOCK_STREAM | SOCK_DGRAM.

Record socket := {
  family : address_family;
  kind : socket_kind;
  host : string;             (* the empty string is INADDR_ANY: all interfaces *)
  port : N
}.

(** What reaches the process while it is in [serve_forever]: a connection
    that carries a request, with the state of the world when it is handled,
    or the interrupt signal, which Python raises as KeyboardInterrupt. *)
Inductive event :=
| Connection (W : World) (r : Request)
| KeyboardInterrupt.

(** A connection that was accepted: the directory that the handler
    resolved paths against (None when [os.getcwd()] raised and the handler was
    not made), the request, and the response (None when nothing was sent). *)
Record Exchange := {
  served_root : option string;
  request : Request;
  response : option (list chunk)
}.

Record Process := {
  cwd : string;                      (* the working directory, by the name under which
                                        the process entered it *)
  stdout : list string;              (* the arguments of print, in order *)
  listening : list socket;           (* the open listening sockets *)
  exchanges : list Exchange;
  exit_status : option N             (* None while the process runs *)
}.

Module Process.
Definition chdir (d : string) (p : Process) : Process :=
  {| cwd := d; stdout := stdout p; listening := listening p;
     exchanges := exchanges p; exit_status := exit_status p |}.
Definition print (s : string) (p : Process) : Process :=
  {| cwd := cwd p; stdout := (stdout p ++ [s])%list; listening := listening p;
     exchanges := exchanges p; exit_status := exit_status p |}.
Definition set_listening (l : list socket) (p : Process) : Process :=
  {| cwd := cwd p; stdout := stdout p; listening := l;
     exchanges := exchanges p; exit_status := exit_status p |}.
Definition record (e : Exchange) (p : Process) : Process :=
  {| cwd := cwd p; stdout := stdout p; listening := listening p;
     exchanges := (exchanges p ++ [e])%list; exit_status := exit_status p |}.
Definition exit (code : N) (p : Process) : Process :=
  {| cwd := cwd p; stdout := stdout p; listening := listening p;
     exchanges := exchanges p; exit_status := Some code |}.
(** The process when the interpreter starts the script. *)
Definition start (getcwd : string) : Process :=
  {| cwd := getcwd; stdout := []; listening := []; exchanges := []; exit_status := None |}.
End Process.

Module socketserver.

(** [TCPServer(server_address, RequestHandlerClass)]: a socket of
    [address_family] AF_INET and [socket_type] SOCK_STREAM, bound and
    listening; None when [server_bind] raises OSError, after which the
    constructor has closed the socket again. *)
Definition TCPServer (server_address : string * N) (bind_ok : bool) (p : Process)
  : option Process :=
  if bind_ok then
    Some (Process.set_listening
            ({| family := AF_INET; kind := SOCK_STREAM;
                host := fst server_address; port := snd server_address |} :: listening p) p)
  else None.

(** [server_close], which [__exit__] calls. *)
Definition server_close (p : Process) : Process := Process.set_listening [] p.

(** [finish_request]: a new handler instance handles the connection, and
    its [__init__] asks [os.getcwd()] for its directory. A handler that raises
    an Exception is reported by [handle_error] and the loop goes on. *)
Definition finish_request (L : Lib) (W : World) (r : Request) (p : Process) : Process :=
  Process.record
    {| served_root := os.getcwd W (cwd p); request := r;
       response := os.getcwd W (cwd p) ≫= fun directory =>
                   CORSRequestHandler.respond L W directory r |} p.

(** [serve_forever] over the events that arrive; the flag tells whether it
    was left by KeyboardInterrupt (true) or is still waiting (false). *)
Fixpoint serve_forever (L : Lib) (events : list event) (p : Process) : Process * bool :=
  match events with
  | [] => (p, false)
  | Connection W r :: events' => serve_forever L events' (finish_request L W r p)
  | KeyboardInterrupt :: _ => (p, true)
  end.

End socketserver.

Definition PORT : N := 3012.

(** The main block (server.py, lines 19-32), given [__file__] and the
    working directory at the start, whether the bind succeeds, and the events
    that arrive while it serves. An OSError of the constructor is not caught:
    the interpreter prints the traceback and exits with status 1. *)
Definition main (L : Lib) (__file__ getcwd : string) (bind_ok : bool) (events : list event)
  : Process :=
  let p := Process.start getcwd in
  let p := Process.chdir (posixpath.dirname (posixpath.abspath (cwd p) __file__)) p in
  match socketserver.TCPServer ("", PORT) bind_ok p with
  | None => Process.exit 1 p          (* the OSError is not caught *)
  | Some p =>
      let p := Process.print "=== ZeroDrop Frontend Server ===" p in
      let p := Process.print ("Server started at http://localhost:" +:+ Str.of_N PORT) p in
      let p := Process.print ("Open your browser to: http://localhost:" +:+ Str.of_N PORT) p in
      let p := Process.print "Press Ctrl+C to stop the server" p in
      let p := Process.print "" p in
      match socketserver.serve_forever L events p with
      | (p, true) =>
          let p := Process.print (BaseHTTPRequestHandler.LF +:+ "Server stopped.") p in
          let p := socketserver.server_close p in
          Process.exit 0 p
      | (p, false) => p
      end
  end.

(** ** Paths inside the served root *)

(** A component that names a file or directory in its parent: not empty, not
    [.] or [..], without a separator. *)
Definition simple_name (w : string) : Prop :=
  w <> "" /\ w <> "." /\ w <> ".." /\ Str.has_sep w = false.

(** The path names inside [root]: those built from [root] by descending
    into simple names and appending separators. *)
Inductive inside (root : string) : string -> Prop :=
| inside_root : inside root root
| inside_child p w : inside root p -> simple_name w -> inside root (posixpath.join p w)
| inside_slash p : inside root p -> inside root (p +:+ "/").

(** Two states of the world that show the same clock and, under every path
    name inside [root] and under the names of the entries of its directories,
    the same file or directory; what the other path names show may differ at
    will. What a path name shows is what the file system resolves it to: for
    a symbolic link, its target. *)
Definition agree_inside (root : string) (W1 W2 : World) : Prop :=
  time W1 = time W2
  /\ (forall p, inside root p ->
        lookup_path W1 p = lookup_path W2 p /\ unencodable W1 p = unencodable W2 p)
  /\ (forall p l name, inside root p -> os.listdir W1 p = os.Returned l -> In name l ->
        lookup_path W1 (posixpath.join p name) = lookup_path W2 (posixpath.join p name)
        /\ unencodable W1 (posixpath.join p name) = unencodable W2 (posixpath.join p name)
        /\ islink W1 (posixpath.join p name) = islink W2 (posixpath.join p name)).

(** A request path with a [..] component. *)
Definition has_dotdot (path : string) : bool :=
  existsb (String.eqb "..") (Str.split Str.sep path).

(** ** What the methods do to the header buffer and the output *)

Definition cors_lines : list line := map (fun kv => Field (fst kv) (snd kv)) cors_fields.

(** The attributes that [parse_request] and [__init__] set are the same in
    both handlers. *)
Definition same_request (h h' : Handler) : Prop :=
  command h' = command h /\ path h' = path h /\ request_version h' = request_version h
  /\ headers h' = headers h /\ directory h' = directory h.

(** [m] appends the lines [ls] to the header buffer and does nothing else. *)
Definition emits (ls : list line) (m : proc) : Prop :=
  forall h, BaseHTTPRequestHandler.has_headers h = true ->
    exists h', m h = Some h' /\ same_request h h' /\ wfile h' = wfile h
               /\ _headers_buffer h' = Some (default [] (_headers_buffer h) ++ ls)%list.

(** [m] appends the lines [ls] to the header buffer and writes the buffer
    out. *)
Definition flushes (ls : list line) (m : proc) : Prop :=
  forall h, BaseHTTPRequestHandler.has_headers h = true ->
    exists h', m h = Some h' /\ same_request h h'
               /\ wfile h' = (wfile h ++ [Head (default [] (_headers_buffer h) ++ ls)])%list
               /\ _headers_buffer h' = Some [].

(** A handler that has not sent anything yet. *)
Definition fresh (h : Handler) : Prop :=
  BaseHTTPRequestHandler.has_headers h = true /\ _headers_buffer h = None /\ wfile h = [].

(** The header block of a response of [CORSRequestHandler]: the status line,
    the fields that the method sent, the four fields of [end_headers] and the
    blank line. *)
Definition head_of (code : N) (message : string) (fields : list line) : chunk :=
  Head (Status BaseHTTPRequestHandler.protocol_version code message
          :: fields ++ cors_lines ++ [Blank])%list.

(** A write of body bytes. *)
Definition is_body (c : chunk) : Prop :=
  match c with Body _ => True | Head _ => False end.

(** The fields that [send_response] sends after the status line. *)
Definition server_fields (L : Lib) (W : World) : list line :=
  [Field "Server" (BaseHTTPRequestHandler.version_string L SimpleHTTPRequestHandler.server_version);
   Field "Date" (BaseHTTPRequestHandler.date_time_string L W None)].

(** The body of an error response. *)
Definition error_body (code : N) (message explain : string) : string :=
  Str.utf8 (BaseHTTPRequestHandler.error_message_format code
              (BaseHTTPRequestHandler.html_escape message)
              (BaseHTTPRequestHandler.html_escape explain)).

(** The fields of an error response. *)
Definition error_fields (L : Lib) (W : World) (body : string) : list line :=
  (server_fields L W ++
   [Field "Connection" "close";
    Field "Content-Type" BaseHTTPRequestHandler.error_content_type;
    Field "Content-Length" (Str.of_N (N.of_nat (String.length body)))])%list.

(** The fields of a 200 response that carries [data]. *)
Definition file_fields (L : Lib) (W : World) (ctype data : string) (st_mtime : Z) : list line :=
  (server_fields L W ++
   [Field "Content-type" ctype;
    Field "Content-Length" (Str.of_N (N.of_nat (String.length data)));
    Field "Last-Modified" (BaseHTTPRequestHandler.date_time_string L W (Some st_mtime))])%list.


(** The body of the 404 response of [send_head]. *)
Definition not_found_body : string :=
  error_body 404 "File not found" "Nothing matches the given URI".

(** The fields of a response under the names that [end_headers] sends. *)
Definition injected_fields (out : list chunk) : list (string * string) :=
  List.filter (fun kv => existsb (String.eqb (fst kv)) (map fst cors_fields))
              (response_fields out).

(** ** Runs of the process *)

Definition is_interrupt (e : event) : bool :=
  match e with KeyboardInterrupt => true | Connection _ _ => false end.

(** Whether the interrupt is among the events. *)
Definition interrupted (events : list event) : bool := existsb is_interrupt events.

(** The exchanges of a server whose working directory was entered as
    [cwd], for the connections that arrive before the first interrupt. *)
Fixpoint answers (L : Lib) (cwd : string) (events : list event) : list Exchange :=
  match events with
  | [] => []
  | Connection W r :: events' =>
      {| served_root := os.getcwd W cwd; request := r;
         response := os.getcwd W cwd ≫= fun directory =>
                     CORSRequestHandler.respond L W directory r |}
      :: answers L cwd events'
  | KeyboardInterrupt :: _ => []
  end.

(** The absolute path with the components [names]. *)
Definition absolute (names : list string) : string := "/" +:+ Str.join "/" names.

(** The directory of the script: the argument of [os.chdir]. *)
Definition script_dir (__file__ getcwd : string) : string :=
  posixpath.dirname (posixpath.abspath getcwd __file__).

(** The socket of [TCPServer(("", PORT), CORSRequestHandler)]. *)
Definition server_socket : socket :=
  {| family := AF_INET; kind := SOCK_STREAM; host := ""; port := 3012 |}.

(** What the main block prints before it serves. *)
Definition banner : list string :=
  [ "=== ZeroDrop Frontend Server ===";
    "Server started at http://localhost:3012";
    "Open your browser to: http://localhost:3012";
    "Press Ctrl+C to stop the server";
    "" ].

(** ** A concrete environment for the examples *)

Definition hex_digit (a : ascii) : option N :=
  let n := N_of_ascii a in
  if ((48 <=? n) && (n <=? 57))%N then Some (n - 48)%N
  else if ((65 <=? n) && (n <=? 70))%N then Some (n - 55)%N
  else if ((97 <=? n) && (n <=? 102))%N then Some (n - 87)%N
  else None.

(** [urllib.parse.unquote] on the escapes of the code points below 128;
    other escapes are left as they are. *)
Fixpoint percent_decode (s : string) : string :=
  match s with
  | EmptyString => EmptyString
  | String c t =>
      match t with
      | String a (String b u) =>
          if Ascii.eqb c "%" then
            match hex_digit a, hex_digit b with
            | Some x, Some y =>
                if (x <? 8)%N then String (ascii_of_N (16 * x + y)) (percent_decode u)
                else String c (percent_decode t)
            | _, _ => String c (percent_decode t)
            end
          else String c (percent_decode t)
      | _ => String c (percent_decode t)
      end
  end.

(** The library functions at the inputs that the examples use: paths whose
    percent escapes are of code points below 128, without query or fragment,
    and the one date that the example world knows. *)
Definition example_lib : Lib := {|
  unquote := percent_decode;
  urlsplit := fun s => {| scheme := ""; netloc := ""; url_path := s; query := ""; fragment := "" |};
  urlunsplit := fun parts => url_path parts;
  guess_type := fun p => if Str.endswith p ".html" then "text/html" else "application/octet-stream";
  formatdate := fun _ => "Thu, 01 Jan 1970 00:00:00 GMT";
  parsedate_utc := fun s =>
    if String.eqb s "Thu, 01 Jan 1970 00:00:00 GMT" then Some 0%Z else None;
  repr := fun s => "'" +:+ s +:+ "'";
  sys_version := "Python/3.11.2";
  filesystemencoding := "utf-8";
  listing_page := fun request_path _ entries =>
    Some ("Directory listing for " +:+ request_path +:+ ": " +:+
          Str.join " " (map (fun e => fst (fst e)) entries))
|}.

(** A file system whose served root [/srv] holds [index.html], with a file
    outside of it. *)
Definition example_files (passwd : string) (p : string) : option node :=
  if String.eqb p "/srv" || String.eqb p "/srv/" then Some (Dir (Some ["index.html"]))
  else if String.eqb p "/srv/index.html" then Some (File true "<h1>hi</h1>" 0)
  else if String.eqb p "/etc/passwd" then Some (File true passwd 0)
  else None.

(** Every string of the examples can be encoded, and the directories are
    named by their canonical paths. *)
Definition example_world (passwd : string) : World :=
  {| lookup_path := example_files passwd; islink := fun _ => false; time := 0;
     unencodable := fun _ => false; realpath := fun d => Some d |}.

(** The same served root with one more entry: [passwd], a symbolic link to
    [/etc/passwd], which the file system resolves to that file. *)
Definition example_linked_world (passwd : string) : World :=
  {| lookup_path := fun p =>
       if String.eqb p "/srv/passwd" then example_files passwd "/etc/passwd"
       else example_files passwd p;
     islink := fun p => String.eqb p "/srv/passwd"; time := 0;
     unencodable := fun _ => false; realpath := fun d => Some d |}.

(** The file system of the examples with a directory that holds two files
    and no index, a directory that cannot be listed, a file without read
    permission, an empty file, and a file whose modification time is the
    first second of the year 10000. *)
Definition example_listing_world : World :=
  {| lookup_path := fun p =>
       if String.eqb p "/srv/docs" || String.eqb p "/srv/docs/"
       then Some (Dir (Some ["a.txt"; "b.txt"]))
       else if String.eqb p "/srv/locked" || String.eqb p "/srv/locked/" then Some (Dir None)
       else if String.eqb p "/srv/secret.txt" then Some (File false "hidden" 0)
       else if String.eqb p "/srv/empty.txt" then Some (File true "" 0)
       else if String.eqb p "/srv/future.txt" then Some (File true "later" 253402300800)
       else example_files "" p;
     islink := fun _ => false; time := 0;
     unencodable := fun _ => false; realpath := fun d => Some d |}.

Definition example_request (command path : string) (headers : list (string * string))
  : Request :=
  {| r_command := command; r_path := path; r_minor := "1"; r_headers := headers |}.

(** ** The response in closed form *)

(** The header block and the writes of body bytes that a method is about to
    send; the body is the error page, the file's bytes or the listing, and is
    not sent for HEAD. *)
Definition plan : Type := chunk * list chunk.

(** The writes of [copyfile] for a file object that holds [data]. *)
Definition file_chunks (data : string) : list chunk :=
  map Body (Str.blocks shutil.COPY_BUFSIZE data).

(** [send_error] on a handler that has sent nothing. *)
Definition planned_error (L : Lib) (W : World) (code : N) (message explain : string) : plan :=
  let body := error_body code message explain in
  (head_of code message (error_fields L W body), [Body body]).

(** [send_head] from [ctype = self.guess_type(path)] on; None when the
    method raises. *)
Definition planned_file (L : Lib) (W : World) (headers : list (string * string))
    (path : string) : option plan :=
  if Str.endswith path "/" then
    Some (planned_error L W 404 "File not found" "Nothing matches the given URI")
  else
    match os.open_rb W path with
    | os.ValueError => None
    | os.OSError =>
        Some (planned_error L W 404 "File not found" "Nothing matches the given URI")
    | os.Returned (data, st_mtime) =>
        if negb (datetime.in_range st_mtime) then None
        else if SimpleHTTPRequestHandler.not_modified L headers st_mtime
        then Some (head_of 304 "Not Modified" (server_fields L W), [])
        else Some (head_of 200 "OK" (file_fields L W (guess_type L path) data st_mtime),
                   file_chunks data)
    end.

(** The entries that [list_directory] shows, with their flags. *)
Definition listed (W : World) (path : string) (names : list string)
  : list (string * bool * bool) :=
  map (fun name => (name, os.isdir W (posixpath.join path name),
                    islink W (posixpath.join path name))) names.

(** The fields of a directory listing. *)
Definition listing_fields (L : Lib) (W : World) (encoded : string) : list line :=
  server_fields L W ++
  [Field "Content-type" ("text/html; charset=" +:+ filesystemencoding L);
   Field "Content-Length" (Str.of_N (N.of_nat (String.length encoded)))].

(** [list_directory]. *)
Definition planned_listing (L : Lib) (W : World) (request_path path : string) : option plan :=
  match os.listdir W path with
  | os.ValueError => None
  | os.OSError =>
      Some (planned_error L W 404 "No permission to list directory"
              "Nothing matches the given URI")
  | os.Returned names =>
      match listing_page L request_path path (listed W path names) with
      | None => None
      | Some encoded => Some (head_of 200 "OK" (listing_fields L W encoded), file_chunks encoded)
      end
  end.

(** The target of the redirect for a directory named without its slash. *)
Definition redirect_url (L : Lib) (request_path : string) : string :=
  let parts := urlsplit L request_path in
  urlunsplit L {| scheme := scheme parts; netloc := netloc parts;
                  url_path := url_path parts +:+ "/";
                  query := query parts; fragment := fragment parts |}.

(** [send_head]. *)
Definition planned (L : Lib) (W : World) (root request_path : string)
    (headers : list (string * string)) : option plan :=
  let path := SimpleHTTPRequestHandler.translate_path L root request_path in
  if os.isdir W path then
    if negb (Str.endswith (url_path (urlsplit L request_path)) "/") then
      Some (head_of 301 "Moved Permanently"
              (server_fields L W ++
               [Field "Location" (redirect_url L request_path); Field "Content-Length" "0"]),
            [])
    else
      match List.find (os.isfile W)
              [posixpath.join path "index.html"; posixpath.join path "index.htm"] with
      | Some index => planned_file L W headers index
      | None => planned_listing L W request_path path
      end
  else planned_file L W headers path.

(** The chunks of a plan, for a method that sends the body. *)
Definition sent (p : plan) : list chunk := fst p :: snd p.

(** The response to a request, by its command; None when the handler
    raises. *)
Definition answer (L : Lib) (W : World) (root : string) (r : Request) : option (list chunk) :=
  if String.eqb (r_command r) "OPTIONS" then Some [head_of 200 "ok" (server_fields L W)]
  else if String.eqb (r_command r) "GET"
  then sent <$> planned L W root (r_path r) (r_headers r)
  else if String.eqb (r_command r) "HEAD"
  then (fun p : plan => [fst p]) <$> planned L W root (r_path r) (r_headers r)
  else Some (sent (planned_error L W 501
                     ("Unsupported method (" +:+ repr L (r_command r) +:+ ")")
                     "Server does not support this operation")).

(** How the result of [send_head] relates to its plan: both raise, or an
    error page is written by [send_error] unless the command is HEAD, and a
    file object is handed to the caller. *)
Definition follows (h : Handler) (p : option plan) (x : option (option string * Handler))
  : Prop :=
  match p with
  | None => x = None
  | Some p =>
      exists f h', x = Some (f, h')
        /\ wfile h' ++ (if String.eqb (command h) "HEAD" then []
                        else match f with Some data => file_chunks data | None => [] end)
           = if String.eqb (command h) "HEAD" then [fst p] else sent p
  end.

(** A plan that starts with a header block of [CORSRequestHandler] and goes
    on with body bytes only, whose header block carries the fields of
    [end_headers] once, and whose Content-Length, if any, is the length of its
    body. *)
Definition sound_plan (p : plan) : Prop :=
  (exists code message fields, fst p = head_of code message fields)
  /\ Forall is_body (snd p)
  /\ injected_fields [fst p] = cors_fields
  /\ (forall v, In ("Content-Length", v) (response_fields [fst p]) ->
        v = Str.of_N (N.of_nat (String.length (wire (snd p)))))
  /\ (wire (snd p) <> "" ->
        In ("Content-Length", Str.of_N (N.of_nat (String.length (wire (snd p)))))
           (response_fields [fst p])).

(** [m] does not reopen a connection that is to be closed. *)
Definition closes (m : proc) : Prop :=
  forall h h', m h = Some h' -> close_connection h = true -> close_connection h' = true.

Definition closes_returning {A : Type} (m : Handler -> option (A * Handler)) : Prop :=
  forall h x h', m h = Some (x, h') -> close_connection h = true -> close_connection h' = true.

(** A handler as a request line without a version leaves it. *)
Definition example_http09_handler : Handler :=
  {| command := "GET"; path := "/index.html"; request_version := "HTTP/0.9";
     headers := []; directory := "/srv";
     _headers_buffer := None; wfile := []; close_connection := true |}.

(** The request of a connection. *)
Definition event_request (e : event) : option Request :=
  match e with Connection _ r => Some r | KeyboardInterrupt => None end.

(** * Properties *)

(** ** Strings and paths *)

Example normpath_examples :
  posixpath.normpath "/../index.html" = "/index.html"
  /\ posixpath.normpath "../../etc/passwd" = "../../etc/passwd"
  /\ posixpath.normpath "/a//b/./c/../d/" = "/a/b/d"
  /\ posixpath.normpath "//x" = "//x"
  /\ posixpath.normpath "///x" = "/x"
  /\ posixpath.normpath "" = "."
  /\ posixpath.normpath "a/../../b" = "../b".
Proof. repeat split; reflexivity. Qed.

Example dirname_examples :
  posixpath.dirname "/srv/app/server.py" = "/srv/app"
  /\ posixpath.dirname "server.py" = ""
  /\ posixpath.dirname "/server.py" = "/"
  /\ posixpath.dirname "//a" = "//"
  /\ posixpath.dirname "a//b" = "a".
Proof. repeat split; reflexivity. Qed.

Lemma upto_last_sep_empty w : Str.upto_last_sep w = "" -> Str.has_sep w = false.
Proof.
  induction w as [|a w IH]; simpl; [reflexivity|].
  destruct (Str.upto_last_sep w) eqn:E; [|discriminate].
  destruct (Ascii.eqb a Str.sep); [discriminate|].
  intros _. now apply IH.
Qed.

Lemma rstrip_sep_empty h :
  Str.rstrip_by (fun a => Ascii.eqb a Str.sep) h = "" -> Str.all_sep h = true.
Proof.
  induction h as [|a h IH]; cbn [Str.rstrip_by Str.all_sep]; [reflexivity|].
  destruct (Str.rstrip_by _ h) eqn:E; [|discriminate].
  destruct (Ascii.eqb a Str.sep); [|discriminate].
  intros _. now rewrite IH.
Qed.

Lemma dirname_empty w : posixpath.dirname w = "" -> Str.has_sep w = false.
Proof.
  unfold posixpath.dirname.
  destruct (String.eqb (Str.upto_last_sep w) "") eqn:E; simpl.
  - intros _. apply upto_last_sep_empty. now apply String.eqb_eq.
  - destruct (Str.all_sep (Str.upto_last_sep w)) eqn:A; simpl.
    + intros H. rewrite H in E. discriminate.
    + intros H. apply rstrip_sep_empty in H. congruence.
Qed.

Lemma simple_name_of_kept w :
  w <> "" -> SimpleHTTPRequestHandler.not_simple w = false -> simple_name w.
Proof.
  unfold SimpleHTTPRequestHandler.not_simple. intros Hne H.
  apply orb_false_elim in H as [H H2]. apply orb_false_elim in H as [H0 H1].
  apply negb_false_iff, String.eqb_eq in H0.
  apply String.eqb_neq in H1, H2.
  repeat split; auto using dirname_empty.
Qed.

Lemma translate_loop_inside root words p :
  Forall (fun w => w <> "") words -> inside root p ->
  inside root
    (fold_left (fun path word =>
                  if SimpleHTTPRequestHandler.not_simple word then path
                  else posixpath.join path word) words p).
Proof.
  intros Hw. revert p. induction Hw as [|w words Hne _ IH]; simpl; intros p Hp; [assumption|].
  apply IH. destruct (SimpleHTTPRequestHandler.not_simple w) eqn:E; [assumption|].
  apply inside_child; auto using simple_name_of_kept.
Qed.

(** Whatever the request path, [translate_path] yields a path inside the
    directory it starts from. *)
Lemma translate_path_inside L root path :
  inside root (SimpleHTTPRequestHandler.translate_path L root path).
Proof.
  unfold SimpleHTTPRequestHandler.translate_path.
  match goal with |- context [fold_left ?f ?ws root] =>
    assert (Hin : inside root (fold_left f ws root)) end.
  { apply translate_loop_inside; [|constructor].
    apply List.Forall_forall. intros w Hw. apply List.filter_In in Hw as [_ Hw].
    now apply negb_true_iff, String.eqb_neq in Hw. }
  destruct (Str.endswith _ "/"); [now apply inside_slash | assumption].
Qed.

(** Every path inside the root starts with the root. *)
Lemma startswith_app_r s p t : Str.startswith p s = true -> Str.startswith (p +:+ t) s = true.
Proof.
  revert p. induction s as [|a s IH]; intros p; [reflexivity|].
  destruct p as [|b p]; [discriminate|]. change (String b p +:+ t) with (String b (p +:+ t)).
  cbn [Str.startswith]. destruct (Ascii.eqb b a); [apply IH | discriminate].
Qed.

Lemma has_sep_not_absolute w : Str.has_sep w = false -> Str.startswith w "/" = false.
Proof.
  destruct w as [|a w]; cbn [Str.has_sep Str.startswith]; [reflexivity|].
  intros H. apply orb_false_elim in H as [H _]. unfold Str.sep in H. now rewrite H.
Qed.

Lemma inside_prefix root p : inside root p -> Str.startswith p root = true.
Proof.
  induction 1 as [|p w _ IH [_ [_ [_ Hs]]]|p _ IH].
  - induction root as [|a s IH]; cbn [Str.startswith]; [reflexivity|].
    now rewrite Ascii.eqb_refl.
  - unfold posixpath.join. rewrite (has_sep_not_absolute w Hs).
    destruct (_ || _); auto using startswith_app_r.
  - auto using startswith_app_r.
Qed.

(** ** Blocks of a file *)

Lemma append_empty_r s : s +:+ "" = s.
Proof.
  induction s as [|a s IH]; [reflexivity|].
  change (String a s +:+ "") with (String a (s +:+ "")). now rewrite IH.
Qed.

Lemma concat_cons x xs : String.concat "" (x :: xs) = x +:+ String.concat "" xs.
Proof. destruct xs; cbn [String.concat]; [now rewrite append_empty_r | reflexivity]. Qed.

Lemma blocks_go_concat length filled s :
  fst (Str.blocks_go length filled s) +:+ String.concat "" (snd (Str.blocks_go length filled s))
  = s.
Proof.
  revert filled. induction s as [|a s IH]; intros filled; [reflexivity|].
  cbn [Str.blocks_go]. destruct (filled <? length)%N.
  - specialize (IH (filled + 1)%N). destruct (Str.blocks_go length (filled + 1) s) as [buf rest].
    cbn [fst snd] in *. change (String a buf +:+ ?t) with (String a (buf +:+ t)). now rewrite IH.
  - specialize (IH 1%N). destruct (Str.blocks_go length 1 s) as [buf rest].
    cbn [fst snd] in *. rewrite concat_cons.
    change ("" +:+ ?t) with t. change (String a buf +:+ ?t) with (String a (buf +:+ t)).
    now rewrite IH.
Qed.

(** The blocks that are read, one after the other, are the bytes of the
    file. *)
Lemma concat_blocks length s : String.concat "" (Str.blocks length s) = s.
Proof.
  unfold Str.blocks. destruct s as [|a s]; [reflexivity|].
  pose proof (blocks_go_concat length 0 (String a s)) as H.
  destruct (Str.blocks_go length 0 (String a s)) as [buf rest].
  now rewrite concat_cons.
Qed.

(** ** The directory of a script *)

Lemma no_sep_upto w : Str.has_sep w = false -> Str.upto_last_sep w = "".
Proof.
  induction w as [|a w IH]; cbn [Str.has_sep Str.upto_last_sep]; [reflexivity|].
  intros H. apply orb_false_elim in H as [Ha H]. now rewrite (IH H), Ha.
Qed.

Lemma upto_last_sep_app s name :
  Str.has_sep name = false ->
  Str.upto_last_sep (s +:+ "/" +:+ name) = s +:+ "/".
Proof.
  intros H. induction s as [|a s IH].
  - change ("" +:+ "/" +:+ name) with (String "/" name). cbn [Str.upto_last_sep].
    now rewrite (no_sep_upto name H).
  - change (String a s +:+ "/" +:+ name) with (String a (s +:+ "/" +:+ name)).
    cbn [Str.upto_last_sep]. rewrite IH.
    change (String a s +:+ "/") with (String a (s +:+ "/")).
    now destruct s.
Qed.

Lemma rstrip_sep_simple name :
  name <> "" -> Str.has_sep name = false ->
  Str.rstrip_by (fun a => Ascii.eqb a Str.sep) (name +:+ "/") = name.
Proof.
  induction name as [|a name IH]; [congruence|]. intros _ H.
  cbn [Str.has_sep] in H. apply orb_false_elim in H as [Ha H].
  change (String a name +:+ "/") with (String a (name +:+ "/")).
  cbn [Str.rstrip_by]. destruct name as [|b name].
  - cbn. now rewrite Ha.
  - rewrite IH by (discriminate || assumption). reflexivity.
Qed.

Lemma rstrip_by_app p s w :
  Str.rstrip_by p w <> "" -> Str.rstrip_by p (s +:+ w) = s +:+ Str.rstrip_by p w.
Proof.
  intros H. induction s as [|a s IH]; [reflexivity|].
  change (String a s +:+ ?t) with (String a (s +:+ t)).
  cbn [Str.rstrip_by]. rewrite IH.
  destruct (s +:+ Str.rstrip_by p w) eqn:E; [|reflexivity].
  destruct s; [|discriminate E]. change (Str.rstrip_by p w = "") in E. congruence.
Qed.

Lemma all_sep_app s name :
  name <> "" -> Str.has_sep name = false -> Str.all_sep (s +:+ name) = false.
Proof.
  intros Hn H. induction s as [|a s IH].
  - destruct name as [|b name]; [congruence|]. cbn [Str.has_sep] in H.
    apply orb_false_elim in H as [Hb _].
    change ("" +:+ String b name) with (String b name). cbn [Str.all_sep]. now rewrite Hb.
  - change (String a s +:+ name) with (String a (s +:+ name)). cbn [Str.all_sep].
    rewrite IH. apply andb_false_r.
Qed.

Lemma all_sep_app_l s t : Str.all_sep s = false -> Str.all_sep (s +:+ t) = false.
Proof.
  induction s as [|a s IH]; [discriminate|].
  change (String a s +:+ t) with (String a (s +:+ t)). cbn [Str.all_sep].
  destruct (Ascii.eqb a Str.sep); [exact IH | reflexivity].
Qed.

Lemma append_assoc s t u : (s +:+ t) +:+ u = s +:+ (t +:+ u).
Proof.
  induction s as [|a s IH]; [reflexivity|].
  change (String a s +:+ t) with (String a (s +:+ t)).
  change (String a (s +:+ t) +:+ u) with (String a ((s +:+ t) +:+ u)).
  change (String a s +:+ (t +:+ u)) with (String a (s +:+ (t +:+ u))).
  now rewrite IH.
Qed.

Lemma join_snoc dir name :
  dir <> [] -> Str.join "/" (dir ++ [name]) = Str.join "/" dir +:+ "/" +:+ name.
Proof.
  unfold Str.join. induction dir as [|d dir IH]; [congruence|]. intros _.
  destruct dir as [|d' dir]; [reflexivity|].
  change ((d :: d' :: dir) ++ [name]) with (d :: ((d' :: dir) ++ [name])).
  change (String.concat "/" (d :: (d' :: dir) ++ [name]))
    with (d +:+ "/" +:+ String.concat "/" ((d' :: dir) ++ [name])).
  rewrite IH by congruence.
  change (String.concat "/" (d :: d' :: dir))
    with (d +:+ "/" +:+ String.concat "/" (d' :: dir)).
  now rewrite !append_assoc.
Qed.

Lemma join_app dir rel :
  dir <> [] -> rel <> [] ->
  Str.join "/" (dir ++ rel) = Str.join "/" dir +:+ "/" +:+ Str.join "/" rel.
Proof.
  unfold Str.join. intros Hd Hr. induction dir as [|d dir IH]; [congruence|].
  destruct dir as [|d' dir].
  - destruct rel; [congruence | reflexivity].
  - change ((d :: d' :: dir) ++ rel) with (d :: ((d' :: dir) ++ rel)).
    change (String.concat "/" (d :: (d' :: dir) ++ rel))
      with (d +:+ "/" +:+ String.concat "/" ((d' :: dir) ++ rel)).
    rewrite IH by congruence.
    change (String.concat "/" (d :: d' :: dir))
      with (d +:+ "/" +:+ String.concat "/" (d' :: dir)).
    now rewrite !append_assoc.
Qed.

(** The last component of a joined path is what follows the last
    separator. *)
Lemma join_last dir name :
  dir <> [] -> exists s, Str.join "/" dir = s +:+ List.last dir name.
Proof.
  induction dir as [|d dir IH]; [congruence|]. intros _.
  destruct dir as [|d' dir]; [now exists ""|].
  destruct IH as (s & E); [congruence|].
  exists (d +:+ "/" +:+ s).
  change (Str.join "/" (d :: d' :: dir)) with (d +:+ "/" +:+ Str.join "/" (d' :: dir)).
  rewrite E, !append_assoc. reflexivity.
Qed.

Lemma last_Forall {A} (P : A -> Prop) l d : l <> [] -> Forall P l -> P (List.last l d).
Proof.
  induction l as [|a l IH]; [congruence|]. intros _ H. inversion_clear H as [|? ? Ha Hl].
  destruct l as [|b l]; [exact Ha|]. apply IH; [congruence | exact Hl].
Qed.

Lemma dirname_absolute dir name :
  Forall simple_name dir -> simple_name name ->
  posixpath.dirname (absolute (dir ++ [name])) = absolute dir.
Proof.
  intros Hd (Hn & _ & _ & Hs). unfold posixpath.dirname, absolute.
  destruct dir as [|d dir].
  - change ("/" +:+ Str.join "/" ([] ++ [name])) with ("" +:+ "/" +:+ name).
    rewrite (upto_last_sep_app "" name Hs). reflexivity.
  - rewrite join_snoc by congruence.
    rewrite <- (append_assoc "/" (Str.join "/" (d :: dir)) ("/" +:+ name)).
    rewrite (upto_last_sep_app _ name Hs).
    destruct (join_last (d :: dir) "" ltac:(congruence)) as (s & E).
    pose proof (last_Forall simple_name (d :: dir) "" ltac:(congruence) Hd) as (Ll & _ & _ & Ls).
    rewrite E. set (l := List.last (d :: dir) "") in *.
    assert (Ha : Str.all_sep (("/" +:+ s +:+ l) +:+ "/") = false).
    { apply all_sep_app_l. rewrite <- append_assoc. now apply all_sep_app. }
    rewrite Ha.
    assert (Hne : String.eqb (("/" +:+ s +:+ l) +:+ "/") "" = false) by reflexivity.
    rewrite Hne. cbn [negb andb].
    rewrite (append_assoc "/" (s +:+ l) "/"), (append_assoc s l "/").
    rewrite <- (append_assoc "/" s (l +:+ "/")).
    rewrite rstrip_by_app; rewrite (rstrip_sep_simple l Ll Ls); [|assumption].
    apply append_assoc.
Qed.

Lemma split_no_sep w : Str.has_sep w = false -> Str.split Str.sep w = [w].
Proof.
  induction w as [|a w IH]; cbn [Str.has_sep Str.split]; [reflexivity|].
  intros H. apply orb_false_elim in H as [Ha H]. now rewrite Ha, (IH H).
Qed.

Lemma split_app_sep w s :
  Str.has_sep w = false ->
  Str.split Str.sep (w +:+ "/" +:+ s) = w :: Str.split Str.sep s.
Proof.
  induction w as [|a w IH]; intros H.
  - reflexivity.
  - cbn [Str.has_sep] in H. apply orb_false_elim in H as [Ha H].
    change (String a w +:+ "/" +:+ s) with (String a (w +:+ "/" +:+ s)).
    cbn [Str.split]. now rewrite Ha, (IH H).
Qed.

Lemma split_join names :
  names <> [] -> Forall simple_name names -> Str.split Str.sep (Str.join "/" names) = names.
Proof.
  induction names as [|n names IH]; [congruence|]. intros _ H.
  inversion_clear H as [|? ? (_ & _ & _ & Hn) Hs].
  destruct names as [|n' names]; [now apply split_no_sep|].
  change (Str.join "/" (n :: n' :: names)) with (n +:+ "/" +:+ Str.join "/" (n' :: names)).
  rewrite (split_app_sep n _ Hn). now rewrite IH by (congruence || assumption).
Qed.

Lemma normpath_comps_simple b names acc :
  Forall simple_name names -> posixpath.normpath_comps b names acc = rev acc ++ names.
Proof.
  intros H. revert acc. induction H as [|n names (H0 & H1 & H2 & _) _ IH]; intros acc.
  - cbn. now rewrite app_nil_r.
  - cbn [posixpath.normpath_comps].
    apply String.eqb_neq in H0, H1, H2. rewrite H0, H1, H2. cbn [orb negb].
    rewrite IH. cbn [rev]. now rewrite <- app_assoc.
Qed.

Lemma startswith_join n ns :
  simple_name n -> Str.startswith (Str.join "/" (n :: ns)) "/" = false.
Proof.
  intros (Hn & _ & _ & Hs). destruct n as [|a n]; [congruence|].
  cbn [Str.has_sep] in Hs. apply orb_false_elim in Hs as [Ha _]. unfold Str.sep in Ha.
  destruct ns as [|n' ns].
  - cbn [Str.join String.concat Str.startswith]. now rewrite Ha.
  - change (Str.join "/" (String a n :: n' :: ns))
      with (String a (n +:+ "/" +:+ Str.join "/" (n' :: ns))).
    cbn [Str.startswith]. now rewrite Ha.
Qed.

(** A path made of simple names is its own normal form. *)
Lemma normpath_absolute names :
  Forall simple_name names -> posixpath.normpath (absolute names) = absolute names.
Proof.
  intros H. destruct names as [|n ns]; [reflexivity|].
  inversion H as [|? ? Hn Hns]; subst.
  pose proof (startswith_join n ns Hn) as Hx.
  pose proof (split_join (n :: ns) ltac:(congruence) H) as Hsp.
  unfold absolute. remember (Str.join "/" (n :: ns)) as x eqn:Ex.
  change ("/" +:+ x) with (String "/" x).
  unfold posixpath.normpath. cbn [String.eqb].
  assert (H1 : Str.startswith (String "/" x) "/" = true) by reflexivity.
  assert (H2 : Str.startswith (String "/" x) "//" = false).
  { change (Str.startswith (String "/" x) "//") with (true && Str.startswith x "/").
    now rewrite Hx. }
  rewrite H1, H2. cbn [andb negb Nat.eqb].
  change (Str.split Str.sep (String "/" x)) with ("" :: Str.split Str.sep x).
  rewrite Hsp.
  change (posixpath.normpath_comps true ("" :: n :: ns) [])
    with (posixpath.normpath_comps true (n :: ns) []).
  rewrite normpath_comps_simple by assumption. cbn [rev app repeat String.concat].
  rewrite <- Ex. reflexivity.
Qed.

Lemma abspath_absolute cwd names :
  Forall simple_name names -> posixpath.abspath cwd (absolute names) = absolute names.
Proof.
  intros H. unfold posixpath.abspath.
  change (posixpath.isabs (absolute names)) with true. now apply normpath_absolute.
Qed.

Lemma endswith_sep_app s name :
  name <> "" -> Str.has_sep name = false -> Str.endswith (s +:+ name) "/" = false.
Proof.
  intros Hn Hs. induction s as [|a s IH].
  - change ("" +:+ name) with name. clear Hn.
    induction name as [|b name IH]; [reflexivity|].
    cbn [Str.has_sep] in Hs. apply orb_false_elim in Hs as [Hb Hs].
    cbn [Str.endswith]. rewrite (IH Hs), orb_false_r. unfold Str.sep in Hb.
    cbn [String.eqb]. now rewrite Hb.
  - change (String a s +:+ name) with (String a (s +:+ name)).
    cbn [Str.endswith]. rewrite IH, orb_false_r. cbn [String.eqb].
    destruct (Ascii.eqb a "/"); [|reflexivity].
    destruct s; [|reflexivity]. destruct name; [congruence | reflexivity].
Qed.

Lemma Forall_simple_app dir rel :
  Forall simple_name (dir ++ rel) -> Forall simple_name dir /\ Forall simple_name rel.
Proof. apply List.Forall_app. Qed.

Lemma abspath_relative dir rel name :
  Forall simple_name (dir ++ rel) -> simple_name name ->
  posixpath.abspath (absolute dir) (Str.join "/" (rel ++ [name]))
  = absolute (dir ++ rel ++ [name]).
Proof.
  intros H Hn. pose proof (Forall_simple_app dir rel H) as [Hd Hr].
  assert (Hall : Forall simple_name (dir ++ rel ++ [name])).
  { rewrite app_assoc. apply List.Forall_app. split; [assumption | now constructor]. }
  assert (Hrel : exists n ns, rel ++ [name] = n :: ns /\ simple_name n).
  { destruct rel as [|n rel]; [now exists name, []|].
    exists n, (rel ++ [name]). split; [reflexivity|]. now inversion Hr. }
  destruct Hrel as (n & ns & Er & Hsn).
  unfold posixpath.abspath, posixpath.isabs, posixpath.join.
  rewrite Er, (startswith_join n ns Hsn), <- Er.
  rewrite <- (normpath_absolute _ Hall). f_equal.
  destruct dir as [|d dir]; [reflexivity|].
  assert (He : Str.endswith (absolute (d :: dir)) "/" = false).
  { unfold absolute.
    destruct (join_last (d :: dir) "" ltac:(congruence)) as (s & E).
    pose proof (last_Forall simple_name (d :: dir) "" ltac:(congruence) Hd)
      as (Ll & _ & _ & Ls).
    rewrite E, <- append_assoc. now apply endswith_sep_app. }
  rewrite He. change (String.eqb (absolute (d :: dir)) "") with false. cbn [orb].
  unfold absolute. rewrite (join_app (d :: dir) (rel ++ [name])).
  - now rewrite append_assoc.
  - congruence.
  - now destruct rel.
Qed.

(** [dirname(abspath(__file__))] is the directory that holds the script,
    for a script named by an absolute path, and for one named relative to
    the working directory. *)
Lemma script_dir_absolute getcwd dir name :
  Forall simple_name dir -> simple_name name ->
  script_dir (absolute (dir ++ [name])) getcwd = absolute dir.
Proof.
  intros Hd Hn. unfold script_dir. rewrite abspath_absolute.
  - now apply dirname_absolute.
  - apply List.Forall_app. split; [assumption | now constructor].
Qed.

Lemma script_dir_relative dir rel name :
  Forall simple_name (dir ++ rel) -> simple_name name ->
  script_dir (Str.join "/" (rel ++ [name])) (absolute dir) = absolute (dir ++ rel).
Proof.
  intros H Hn. unfold script_dir. rewrite (abspath_relative dir rel name H Hn).
  rewrite app_assoc. now apply dirname_absolute.
Qed.

(** ** The scenarios of the specification, on the example world *)

(** [GET /index.html] when [index.html] exists in the served root. *)
Example scenario_get_index :
  CORSRequestHandler.respond example_lib (example_world "") "/srv"
    (example_request "GET" "/index.html" [])
  = Some [ Head [ Status "HTTP/1.0" 200 "OK";
                  Field "Server" "SimpleHTTP/0.6 Python/3.11.2";
                  Field "Date" "Thu, 01 Jan 1970 00:00:00 GMT";
                  Field "Content-type" "text/html";
                  Field "Content-Length" "11";
                  Field "Last-Modified" "Thu, 01 Jan 1970 00:00:00 GMT";
                  Field "Access-Control-Allow-Origin" "*";
                  Field "Access-Control-Allow-Methods" "GET, POST, OPTIONS";
                  Field "Access-Control-Allow-Headers" "*";
                  Field "Cache-Control" "no-cache, no-store, must-revalidate";
                  Blank ];
           Body "<h1>hi</h1>" ].
Proof. vm_compute. reflexivity. Qed.

(** [GET /] is answered with the directory's [index.html]. *)
Example scenario_get_root :
  CORSRequestHandler.respond example_lib (example_world "") "/srv" (example_request "GET" "/" [])
  = CORSRequestHandler.respond example_lib (example_world "") "/srv"
      (example_request "GET" "/index.html" []).
Proof. vm_compute. reflexivity. Qed.

(** [OPTIONS /anything], as bytes on the wire. *)
Example scenario_options :
  wire <$> CORSRequestHandler.respond example_lib (example_world "") "/srv"
             (example_request "OPTIONS" "/anything" [])
  = Some ("HTTP/1.0 200 ok" +:+ CRLF +:+
          "Server: SimpleHTTP/0.6 Python/3.11.2" +:+ CRLF +:+
          "Date: Thu, 01 Jan 1970 00:00:00 GMT" +:+ CRLF +:+
          "Access-Control-Allow-Origin: *" +:+ CRLF +:+
          "Access-Control-Allow-Methods: GET, POST, OPTIONS" +:+ CRLF +:+
          "Access-Control-Allow-Headers: *" +:+ CRLF +:+
          "Cache-Control: no-cache, no-store, must-revalidate" +:+ CRLF +:+
          CRLF).
Proof. vm_compute. reflexivity. Qed.

(** [GET /does-not-exist]. *)
Example scenario_get_missing :
  response_status <$> CORSRequestHandler.respond example_lib (example_world "") "/srv"
                        (example_request "GET" "/does-not-exist" [])
  = Some (Some 404%N).
Proof. vm_compute. reflexivity. Qed.

(** A directory named without its trailing slash is redirected. *)
Example scenario_redirect :
  CORSRequestHandler.respond example_lib (example_world "") "/srv" (example_request "GET" "" [])
  = Some [ Head [ Status "HTTP/1.0" 301 "Moved Permanently";
                  Field "Server" "SimpleHTTP/0.6 Python/3.11.2";
                  Field "Date" "Thu, 01 Jan 1970 00:00:00 GMT";
                  Field "Location" "/";
                  Field "Content-Length" "0";
                  Field "Access-Control-Allow-Origin" "*";
                  Field "Access-Control-Allow-Methods" "GET, POST, OPTIONS";
                  Field "Access-Control-Allow-Headers" "*";
                  Field "Cache-Control" "no-cache, no-store, must-revalidate";
                  Blank ] ].
Proof. vm_compute. reflexivity. Qed.

(** The interrupt while the server is idle. *)
Example scenario_interrupt :
  main example_lib "/srv/server.py" "/home" true [KeyboardInterrupt]
  = {| cwd := "/srv";
       stdout := banner ++ [BaseHTTPRequestHandler.LF +:+ "Server stopped."];
       listening := []; exchanges := []; exit_status := Some 0%N |}.
Proof. vm_compute. reflexivity. Qed.

Example script_dir_examples :
  script_dir "/home/u/zamaapp/frontend/public/server.py" "/tmp"
    = "/home/u/zamaapp/frontend/public"
  /\ script_dir "frontend/public/server.py" "/home/u/zamaapp"
    = "/home/u/zamaapp/frontend/public"
  /\ script_dir "./server.py" "/home/u/zamaapp/frontend/public"
    = "/home/u/zamaapp/frontend/public".
Proof. repeat split; vm_compute; reflexivity. Qed.

(** The guard of [send_header] and [end_headers]: a handler whose
    [request_version] is HTTP/0.9, which is what a request line without a
    version leaves and what no [Request] has, sends no header block. *)
Remark end_headers_http09 h :
  request_version h = "HTTP/0.9" -> CORSRequestHandler.end_headers h = Some h.
Proof.
  intros Hv.
  assert (Hs : forall k v, String.eqb (Str.lower k) "connection" = false ->
                           BaseHTTPRequestHandler.send_header k v h = Some h).
  { intros k v Hk. unfold BaseHTTPRequestHandler.send_header, BaseHTTPRequestHandler.has_headers.
    now rewrite Hv, Hk. }
  unfold CORSRequestHandler.end_headers, CORSRequestHandler.send_header, seq.
  rewrite !Hs by reflexivity. cbn [mbind option_bind]. rewrite !Hs by reflexivity.
  cbn [mbind option_bind]. rewrite !Hs by reflexivity. cbn [mbind option_bind].
  rewrite !Hs by reflexivity. cbn [mbind option_bind].
  unfold BaseHTTPRequestHandler.end_headers, BaseHTTPRequestHandler.has_headers.
  now rewrite Hv.
Qed.

(** ** The header buffer *)

Section Buffer.
Import BaseHTTPRequestHandler.

Lemma same_request_trans h1 h2 h3 :
  same_request h1 h2 -> same_request h2 h3 -> same_request h1 h3.
Proof. unfold same_request. intuition congruence. Qed.

Lemma same_request_has_headers h h' : same_request h h' -> has_headers h' = has_headers h.
Proof. intros (_ & _ & E & _). unfold has_headers. now rewrite E. Qed.

Lemma emits_send_header k v : emits [Field k v] (send_header k v).
Proof.
  intros h Hh. unfold send_header. rewrite Hh.
  destruct (String.eqb (Str.lower k) "connection");
    [destruct (String.eqb (Str.lower v) "close");
      [|destruct (String.eqb (Str.lower v) "keep-alive")]|];
    (eexists; split; [reflexivity|]; repeat split).
Qed.

Lemma emits_send_response_only code message :
  emits [Status protocol_version code
           (match message with
            | Some m => m
            | None => match responses code with Some (phrase, _) => phrase | None => "" end
            end)]
        (send_response_only code message).
Proof.
  intros h Hh. unfold send_response_only. rewrite Hh.
  eexists; split; [reflexivity|]; repeat split.
Qed.

Lemma emits_seq l1 l2 a b : emits l1 a -> emits l2 b -> emits (l1 ++ l2) (a >> b).
Proof.
  intros Ha Hb h Hh.
  destruct (Ha h Hh) as (h1 & E1 & S1 & W1 & B1).
  destruct (Hb h1) as (h2 & E2 & S2 & W2 & B2).
  { now rewrite (same_request_has_headers h h1). }
  exists h2. unfold seq. rewrite E1. cbn. split; [exact E2|].
  split; [eauto using same_request_trans|]. split; [congruence|].
  rewrite B2, B1. cbn. now rewrite <- app_assoc.
Qed.

Lemma flushes_seq l1 l2 a b : emits l1 a -> flushes l2 b -> flushes (l1 ++ l2) (a >> b).
Proof.
  intros Ha Hb h Hh.
  destruct (Ha h Hh) as (h1 & E1 & S1 & W1 & B1).
  destruct (Hb h1) as (h2 & E2 & S2 & W2 & B2).
  { now rewrite (same_request_has_headers h h1). }
  exists h2. unfold seq. rewrite E1. cbn. split; [exact E2|].
  split; [eauto using same_request_trans|]. split; [|assumption].
  rewrite W2, W1, B1. cbn. now rewrite <- app_assoc.
Qed.

(** The base class's [end_headers] after at least one line was buffered:
    the buffer exists, so the append cannot raise. *)
Lemma flushes_base_end_headers l a : emits l a -> flushes (l ++ [Blank]) (a >> end_headers).
Proof.
  intros Ha h Hh.
  destruct (Ha h Hh) as (h1 & E1 & S1 & W1 & B1).
  unfold seq. rewrite E1. cbn. unfold end_headers.
  rewrite (same_request_has_headers h h1 S1), Hh, B1. cbn.
  eexists; split; [reflexivity|]. cbn.
  split; [exact S1|]. split; [|reflexivity]. now rewrite W1, <- app_assoc.
Qed.

(** The override: the four fields, the blank line, and the flush. *)
Lemma flushes_end_headers : flushes (cors_lines ++ [Blank]) CORSRequestHandler.end_headers.
Proof.
  unfold CORSRequestHandler.end_headers.
  apply (flushes_base_end_headers cors_lines).
  unfold cors_lines, cors_fields. cbn [map fst snd].
  apply (emits_seq [_; _; _] [_]);
    [apply (emits_seq [_; _] [_]); [apply (emits_seq [_] [_])|]|];
    apply emits_send_header.
Qed.

Lemma emits_send_response L W sv code message :
  emits [Status protocol_version code
           (match message with
            | Some m => m
            | None => match responses code with Some (phrase, _) => phrase | None => "" end
            end);
         Field "Server" (version_string L sv);
         Field "Date" (date_time_string L W None)]
        (send_response L W sv code message).
Proof.
  unfold send_response.
  apply (emits_seq [_; _] [_]); [apply (emits_seq [_] [_])|].
  - apply emits_send_response_only.
  - apply emits_send_header.
  - apply emits_send_header.
Qed.

Lemma run_flush l a h :
  emits l a -> fresh h ->
  exists h', (a >> CORSRequestHandler.end_headers) h = Some h' /\ same_request h h'
             /\ wfile h' = [Head (l ++ cors_lines ++ [Blank])%list].
Proof.
  intros Ha (Hh & Hb & Hw).
  destruct (flushes_seq _ _ _ _ Ha flushes_end_headers h Hh) as (h' & E & S & Wf & _).
  exists h'. rewrite Hb, Hw in Wf. cbn in Wf. auto.
Qed.

End Buffer.

Ltac emits_tac :=
  repeat first
    [ apply emits_send_header
    | apply emits_send_response
    | apply emits_send_response_only
    | eapply emits_seq ].

(** ** The methods of the handler *)

Section Methods.
Context (L : Lib) (W : World).
Import BaseHTTPRequestHandler.
Local Abbreviation sv := SimpleHTTPRequestHandler.server_version.
Local Abbreviation eh := CORSRequestHandler.end_headers.

Lemma fresh_new getcwd r : fresh (CORSRequestHandler.new getcwd r).
Proof. repeat split. Qed.

Lemma error_body_nonempty code message explain :
  String.eqb (error_body code message explain) "" = false.
Proof. reflexivity. Qed.

Lemma send_error_sends code message explain h :
  fresh h ->
  ((200 <=? code)%N && negb ((code =? 204)%N || (code =? 205)%N || (code =? 304)%N)) = true ->
  let explain' := default (snd (default ("???", "???") (responses code))) explain in
  let body := error_body code message explain' in
  exists h', send_error L W sv eh code (Some message) explain h = Some h'
    /\ wfile h' =
         head_of code message (error_fields L W body)
         :: (if String.eqb (command h) "HEAD" then [] else [Body body]).
Proof.
  intros Hf Hc explain' body. unfold send_error.
  subst explain'. destruct (default ("???", "???") (responses code)) as [shortmsg longmsg].
  rewrite Hc. subst body. cbn [default from_option id snd].
  fold (error_body code message (from_option id longmsg explain)).
  set (body := error_body _ _ _).
  match goal with |- context [(?a >> eh >> ?f) h] =>
    eassert (Hrun : emits _ a) by emits_tac;
    destruct (run_flush _ a h Hrun Hf) as (h1 & E1 & (Sc & _) & W1) end.
  unfold seq at 1. rewrite E1. cbn [mbind option_bind].
  rewrite Sc. subst body. rewrite error_body_nonempty.
  destruct (String.eqb (command h) "HEAD"); cbn [negb andb];
    (eexists; split; [reflexivity|]); cbn [wfile write]; rewrite W1; reflexivity.
Qed.

(** Attribute lookup under a name [do_] + [command]. *)
Lemma attrs_lookup c :
  CORSRequestHandler.attrs L W !! ("do_" +:+ c) =
    if String.eqb c "OPTIONS" then Some (CORSRequestHandler.do_OPTIONS L W)
    else if String.eqb c "GET" then Some (SimpleHTTPRequestHandler.do_GET L W eh)
    else if String.eqb c "HEAD" then Some (SimpleHTTPRequestHandler.do_HEAD L W eh)
    else None.
Proof.
  unfold CORSRequestHandler.attrs, SimpleHTTPRequestHandler.attrs.
  change ("do_" +:+ c) with (String "d" (String "o" (String "_" c))).
  destruct (String.eqb_spec c "OPTIONS") as [->|H1].
  { apply lookup_union_Some_l. apply lookup_insert_eq. }
  rewrite lookup_union_r by (rewrite lookup_insert_ne; [apply lookup_empty | congruence]).
  destruct (String.eqb_spec c "GET") as [->|H2]; [apply lookup_insert_eq|].
  rewrite lookup_insert_ne by congruence.
  destruct (String.eqb_spec c "HEAD") as [->|H3]; [apply lookup_insert_eq|].
  rewrite lookup_insert_ne by congruence. apply lookup_empty.
Qed.

Lemma do_OPTIONS_sends h :
  fresh h ->
  exists h', CORSRequestHandler.do_OPTIONS L W h = Some h'
             /\ wfile h' = [head_of 200 "ok" (server_fields L W)].
Proof.
  intros Hf. unfold CORSRequestHandler.do_OPTIONS.
  eassert (Hrun : emits _ (CORSRequestHandler.send_response L W 200 (Some "ok")))
    by apply emits_send_response.
  destruct (run_flush _ _ h Hrun Hf) as (h' & E & _ & Wf).
  exists h'. split; [exact E|]. rewrite Wf. reflexivity.
Qed.

End Methods.

(** ** Serving GET and HEAD: the response in closed form *)

Section Closed.
Context (L : Lib) (W : World).
Import BaseHTTPRequestHandler.
Local Abbreviation eh := CORSRequestHandler.end_headers.

Lemma wfile_fold_write l h :
  wfile (fold_left (fun h buf => write (Body buf) h) l h) = wfile h ++ map Body l.
Proof.
  revert h. induction l as [|b l IH]; intros h; cbn [fold_left map].
  - now rewrite app_nil_r.
  - rewrite IH. cbn [wfile write]. now rewrite <- app_assoc.
Qed.

(** [copyfile] writes the blocks of the file object and does not raise. *)
Lemma copyfile_writes source h :
  wfile <$> SimpleHTTPRequestHandler.copyfile source h
  = Some (wfile h ++ file_chunks source).
Proof.
  unfold SimpleHTTPRequestHandler.copyfile, shutil.copyfileobj, file_chunks.
  cbn [fmap option_fmap option_map]. now rewrite wfile_fold_write.
Qed.

Lemma send_head_file_404 path h :
  fresh h ->
  Str.endswith path "/" = true \/ os.open_rb W path = os.OSError ->
  exists h', SimpleHTTPRequestHandler.send_head_file L W eh path h = Some (None, h')
    /\ wfile h' = head_of 404 "File not found" (error_fields L W not_found_body)
                  :: (if String.eqb (command h) "HEAD" then [] else [Body not_found_body]).
Proof.
  intros Hf Hc.
  destruct (send_error_sends L W 404 "File not found" None h Hf eq_refl) as (h' & E & Wf).
  exists h'. split; [|exact Wf].
  unfold SimpleHTTPRequestHandler.send_head_file, SimpleHTTPRequestHandler.ret_none,
    SimpleHTTPRequestHandler.send_error.
  destruct (Str.endswith path "/"); [now rewrite E|].
  destruct Hc as [Hc|Hc]; [discriminate|]. rewrite Hc. now rewrite E.
Qed.

Lemma send_head_file_304 path h data st_mtime :
  fresh h ->
  Str.endswith path "/" = false ->
  os.open_rb W path = os.Returned (data, st_mtime) ->
  datetime.in_range st_mtime = true ->
  SimpleHTTPRequestHandler.not_modified L (headers h) st_mtime = true ->
  exists h', SimpleHTTPRequestHandler.send_head_file L W eh path h = Some (None, h')
    /\ wfile h' = [head_of 304 "Not Modified" (server_fields L W)].
Proof.
  intros Hf Hs Ho Hr Hn.
  unfold SimpleHTTPRequestHandler.send_head_file, SimpleHTTPRequestHandler.ret_none.
  rewrite Hs, Ho, Hr, Hn. cbn [negb].
  eassert (Hrun : emits _ (SimpleHTTPRequestHandler.send_response L W 304 None))
    by apply emits_send_response.
  destruct (run_flush _ _ h Hrun Hf) as (h' & E & _ & Wf).
  exists h'. rewrite E. split; [reflexivity|]. rewrite Wf. reflexivity.
Qed.

Lemma send_head_file_200 path h data st_mtime :
  fresh h ->
  Str.endswith path "/" = false ->
  os.open_rb W path = os.Returned (data, st_mtime) ->
  datetime.in_range st_mtime = true ->
  SimpleHTTPRequestHandler.not_modified L (headers h) st_mtime = false ->
  exists h', SimpleHTTPRequestHandler.send_head_file L W eh path h = Some (Some data, h')
    /\ wfile h' = [head_of 200 "OK" (file_fields L W (guess_type L path) data st_mtime)].
Proof.
  intros Hf Hs Ho Hr Hn.
  unfold SimpleHTTPRequestHandler.send_head_file.
  rewrite Hs, Ho, Hr, Hn. cbn [negb].
  match goal with |- context [(?a >> eh) h] =>
    eassert (Hrun : emits _ a) by (unfold SimpleHTTPRequestHandler.send_response,
                                     SimpleHTTPRequestHandler.send_header; emits_tac);
    destruct (run_flush _ a h Hrun Hf) as (h' & E & _ & Wf) end.
  exists h'. rewrite E. split; [reflexivity|]. rewrite Wf. reflexivity.
Qed.

(** A ValueError of [open] leaves [send_head_file]. *)
Lemma send_head_file_raises path h :
  Str.endswith path "/" = false ->
  os.open_rb W path = os.ValueError ->
  SimpleHTTPRequestHandler.send_head_file L W eh path h = None.
Proof.
  intros Hs Ho. unfold SimpleHTTPRequestHandler.send_head_file. now rewrite Hs, Ho.
Qed.

Lemma follows_error code message h x :
  (exists h', x = Some (None, h')
     /\ wfile h' = head_of code message (error_fields L W (error_body code message
                      "Nothing matches the given URI"))
                   :: (if String.eqb (command h) "HEAD" then []
                       else [Body (error_body code message "Nothing matches the given URI")])) ->
  follows h (Some (planned_error L W code message "Nothing matches the given URI")) x.
Proof.
  intros (h' & -> & Wf). exists None, h'. split; [reflexivity|]. rewrite Wf.
  destruct (String.eqb (command h) "HEAD"); reflexivity.
Qed.

Lemma send_head_file_planned path h :
  fresh h ->
  follows h (planned_file L W (headers h) path)
    (SimpleHTTPRequestHandler.send_head_file L W eh path h).
Proof.
  intros Hf. unfold planned_file.
  destruct (Str.endswith path "/") eqn:Hs.
  { apply follows_error. apply (send_head_file_404 path h Hf). now left. }
  destruct (os.open_rb W path) as [[data st_mtime]| |] eqn:Ho.
  - destruct (datetime.in_range st_mtime) eqn:Hr; cbn [negb].
    2: { unfold SimpleHTTPRequestHandler.send_head_file. now rewrite Hs, Ho, Hr. }
    destruct (SimpleHTTPRequestHandler.not_modified L (headers h) st_mtime) eqn:Hn.
    + destruct (send_head_file_304 path h data st_mtime Hf Hs Ho Hr Hn) as (h' & E & Wf).
      exists None, h'. split; [exact E|]. rewrite Wf.
      destruct (String.eqb (command h) "HEAD"); reflexivity.
    + destruct (send_head_file_200 path h data st_mtime Hf Hs Ho Hr Hn) as (h' & E & Wf).
      exists (Some data), h'. split; [exact E|]. rewrite Wf.
      destruct (String.eqb (command h) "HEAD"); reflexivity.
  - apply follows_error. apply (send_head_file_404 path h Hf). now right.
  - exact (send_head_file_raises path h Hs Ho).
Qed.

Lemma list_directory_planned path h :
  fresh h ->
  follows h (planned_listing L W (self_path h) path)
    (SimpleHTTPRequestHandler.list_directory L W eh path h).
Proof.
  intros Hf. unfold planned_listing, SimpleHTTPRequestHandler.list_directory.
  destruct (os.listdir W path) as [names| |].
  - fold (listed W path names).
    destruct (listing_page L (self_path h) path (listed W path names)) as [encoded|];
      [|reflexivity].
    match goal with |- context [(?a >> eh) h] =>
      eassert (Hrun : emits _ a) by (unfold SimpleHTTPRequestHandler.send_response,
                                       SimpleHTTPRequestHandler.send_header; emits_tac);
      destruct (run_flush _ a h Hrun Hf) as (h' & E & _ & Wf) end.
    rewrite E. eexists _, h'. split; [reflexivity|]. rewrite Wf.
    destruct (String.eqb (command h) "HEAD"); reflexivity.
  - apply follows_error.
    destruct (send_error_sends L W 404 "No permission to list directory" None h Hf eq_refl)
      as (h' & E & Wf).
    exists h'. unfold SimpleHTTPRequestHandler.ret_none, SimpleHTTPRequestHandler.send_error.
    rewrite E. split; [reflexivity | exact Wf].
  - reflexivity.
Qed.

Lemma send_head_planned h :
  fresh h ->
  follows h (planned L W (directory h) (self_path h) (headers h))
    (SimpleHTTPRequestHandler.send_head L W eh h).
Proof.
  intros Hf. unfold planned, SimpleHTTPRequestHandler.send_head.
  destruct (os.isdir W _); [|now apply send_head_file_planned].
  destruct (negb _).
  - unfold SimpleHTTPRequestHandler.ret_none.
    match goal with |- context [(?a >> eh) h] =>
      eassert (Hrun : emits _ a) by (unfold SimpleHTTPRequestHandler.send_response,
                                       SimpleHTTPRequestHandler.send_header; emits_tac);
      destruct (run_flush _ a h Hrun Hf) as (h' & E & _ & Wf) end.
    rewrite E. exists None, h'. split; [reflexivity|]. rewrite Wf.
    destruct (String.eqb (command h) "HEAD"); reflexivity.
  - destruct (List.find _ _);
      [now apply send_head_file_planned | now apply list_directory_planned].
Qed.

Lemma respond_options getcwd r :
  r_command r = "OPTIONS" ->
  CORSRequestHandler.respond L W getcwd r = Some [head_of 200 "ok" (server_fields L W)].
Proof.
  intros Hc.
  unfold CORSRequestHandler.respond, CORSRequestHandler.handle_one_request,
    BaseHTTPRequestHandler.handle_one_request.
  rewrite attrs_lookup. cbn [command CORSRequestHandler.new]. rewrite Hc. cbn [String.eqb Ascii.eqb Bool.eqb].
  destruct (do_OPTIONS_sends L W _ (fresh_new getcwd r)) as (h' & E & Wf).
  rewrite E. cbn. now rewrite Wf.
Qed.

Lemma respond_unsupported getcwd r :
  r_command r <> "GET" -> r_command r <> "HEAD" -> r_command r <> "OPTIONS" ->
  let message := "Unsupported method (" +:+ repr L (r_command r) +:+ ")" in
  let body := error_body 501 message "Server does not support this operation" in
  CORSRequestHandler.respond L W getcwd r =
    Some [head_of 501 message (error_fields L W body); Body body].
Proof.
  intros H1 H2 H3 message body.
  unfold CORSRequestHandler.respond, CORSRequestHandler.handle_one_request,
    BaseHTTPRequestHandler.handle_one_request.
  rewrite attrs_lookup. cbn [command CORSRequestHandler.new].
  apply String.eqb_neq in H1, H2, H3. rewrite H1, H2, H3.
  destruct (send_error_sends L W 501 message None _ (fresh_new getcwd r) eq_refl)
    as (h' & E & Wf).
  cbn [command CORSRequestHandler.new] in Wf. rewrite H2 in Wf.
  fold message. rewrite E. cbn. now rewrite Wf.
Qed.

Lemma respond_get getcwd r :
  r_command r = "GET" ->
  CORSRequestHandler.respond L W getcwd r =
    wfile <$> SimpleHTTPRequestHandler.do_GET L W CORSRequestHandler.end_headers
                (CORSRequestHandler.new getcwd r).
Proof.
  intros Hc.
  unfold CORSRequestHandler.respond, CORSRequestHandler.handle_one_request,
    BaseHTTPRequestHandler.handle_one_request.
  rewrite attrs_lookup. cbn [command CORSRequestHandler.new]. now rewrite Hc.
Qed.

Lemma respond_head getcwd r :
  r_command r = "HEAD" ->
  CORSRequestHandler.respond L W getcwd r =
    wfile <$> SimpleHTTPRequestHandler.do_HEAD L W CORSRequestHandler.end_headers
                (CORSRequestHandler.new getcwd r).
Proof.
  intros Hc.
  unfold CORSRequestHandler.respond, CORSRequestHandler.handle_one_request,
    BaseHTTPRequestHandler.handle_one_request.
  rewrite attrs_lookup. cbn [command CORSRequestHandler.new]. now rewrite Hc.
Qed.

(** The handler writes what [answer] says, and raises where it says so, for
    every request. *)
Lemma respond_answer root r :
  CORSRequestHandler.respond L W root r = answer L W root r.
Proof.
  unfold answer.
  destruct (String.eqb_spec (r_command r) "OPTIONS") as [Hc|H1];
    [now apply respond_options|].
  pose proof (send_head_planned _ (fresh_new root r)) as R.
  cbn [command directory self_path path headers CORSRequestHandler.new] in R.
  destruct (String.eqb_spec (r_command r) "GET") as [Hc|H2].
  { rewrite (respond_get root r Hc). unfold SimpleHTTPRequestHandler.do_GET.
    destruct (planned L W root (r_path r) (r_headers r)) as [p|].
    - destruct R as (f & h' & E & R). rewrite E. cbn [mbind option_bind].
      cbn [command CORSRequestHandler.new] in R. rewrite Hc in R. cbn [String.eqb Ascii.eqb Bool.eqb] in R.
      cbn [fmap option_fmap option_map]. rewrite <- R.
      destruct f as [data|]; [apply copyfile_writes | cbn; now rewrite app_nil_r].
    - cbn in R. now rewrite R. }
  destruct (String.eqb_spec (r_command r) "HEAD") as [Hc|H3].
  { rewrite (respond_head root r Hc). unfold SimpleHTTPRequestHandler.do_HEAD.
    destruct (planned L W root (r_path r) (r_headers r)) as [p|].
    - destruct R as (f & h' & E & R). rewrite E. cbn [mbind option_bind].
      cbn [command CORSRequestHandler.new] in R. rewrite Hc in R. cbn [String.eqb Ascii.eqb Bool.eqb] in R.
      cbn [fmap option_fmap option_map]. rewrite <- R. now rewrite app_nil_r.
    - cbn in R. now rewrite R. }
  exact (respond_unsupported root r H2 H3 H1).
Qed.

End Closed.

(** ** The process *)

Lemma serve_forever_spec L events p :
  socketserver.serve_forever L events p =
    ({| cwd := cwd p; stdout := stdout p; listening := listening p;
        exchanges := exchanges p ++ answers L (cwd p) events;
        exit_status := exit_status p |},
     interrupted events).
Proof.
  revert p. induction events as [|[W r|] events IH]; intros p; cbn.
  - rewrite app_nil_r. now destruct p.
  - rewrite IH. cbn. now rewrite <- app_assoc.
  - rewrite app_nil_r. now destruct p.
Qed.

Lemma main_serving L __file__ getcwd events :
  main L __file__ getcwd true events =
    {| cwd := script_dir __file__ getcwd;
       stdout := banner ++ (if interrupted events
                            then [BaseHTTPRequestHandler.LF +:+ "Server stopped."] else []);
       listening := if interrupted events then [] else [server_socket];
       exchanges := answers L (script_dir __file__ getcwd) events;
       exit_status := if interrupted events then Some 0%N else None |}.
Proof.
  unfold main. cbn [socketserver.TCPServer]. rewrite serve_forever_spec.
  destruct (interrupted events); reflexivity.
Qed.

Lemma main_bind_failed L __file__ getcwd events :
  main L __file__ getcwd false events =
    {| cwd := script_dir __file__ getcwd; stdout := []; listening := [];
       exchanges := []; exit_status := Some 1%N |}.
Proof. reflexivity. Qed.

(** Every exchange is the answer to a connection that arrived, by a handler
    whose directory is what [os.getcwd()] returned then. *)
Lemma answers_served L cwd events :
  Forall (fun x => exists W,
            In (Connection W (request x)) events
            /\ served_root x = os.getcwd W cwd
            /\ response x = served_root x ≫= fun directory =>
                            CORSRequestHandler.respond L W directory (request x))
         (answers L cwd events).
Proof.
  induction events as [|[W r|] events IH]; cbn [answers]; constructor.
  - exists W. cbn. auto.
  - eapply List.Forall_impl; [|exact IH]. cbn. intros x (W' & Hin & H). exists W'. auto.
Qed.

Lemma interrupted_app before after :
  interrupted (before ++ after) = interrupted before || interrupted after.
Proof. apply existsb_app. Qed.

Lemma answers_app L cwd before after :
  interrupted before = false ->
  answers L cwd (before ++ after) = answers L cwd before ++ answers L cwd after.
Proof.
  induction before as [|[W r|] before IH]; cbn; intros H; [reflexivity| |discriminate].
  now rewrite IH.
Qed.

Lemma answers_length L cwd events :
  interrupted events = false -> length (answers L cwd events) = length events.
Proof.
  induction events as [|[W r|] events IH]; cbn; intros H; [reflexivity| |discriminate].
  now rewrite IH.
Qed.

Lemma answers_requests L cwd events :
  interrupted events = false ->
  map request (answers L cwd events) = omap event_request events.
Proof.
  induction events as [|[W r|] events IH]; cbn; intros H; [reflexivity| |discriminate].
  now rewrite IH.
Qed.

Lemma answers_stop L cwd before after :
  interrupted before = false ->
  answers L cwd (before ++ KeyboardInterrupt :: after) = answers L cwd before.
Proof.
  intros H. rewrite (answers_app L cwd before _ H). cbn. now rewrite app_nil_r.
Qed.

(** ** Plans *)

Lemma omap_cors_lines : omap is_field cors_lines = cors_fields.
Proof. reflexivity. Qed.

Lemma response_fields_head code message fields rest :
  response_fields (head_of code message fields :: rest) = omap is_field fields ++ cors_fields.
Proof.
  unfold response_fields, head_of. cbn [omap list_omap is_field].
  rewrite !omap_app, omap_cors_lines. reflexivity.
Qed.

Lemma injected_fields_head code message fields rest :
  injected_fields (head_of code message fields :: rest)
  = List.filter (fun kv => existsb (String.eqb (fst kv)) (map fst cors_fields))
                (omap is_field fields) ++ cors_fields.
Proof.
  unfold injected_fields. rewrite response_fields_head, List.filter_app. reflexivity.
Qed.

(** The writes of [copyfile], one after the other, are the bytes of the
    file object. *)
Lemma wire_file_chunks data : wire (file_chunks data) = data.
Proof.
  unfold wire, file_chunks. rewrite List.map_map. cbn [encode_chunk].
  rewrite List.map_id. apply concat_blocks.
Qed.

Lemma file_chunks_are_body data : Forall is_body (file_chunks data).
Proof.
  unfold file_chunks. apply List.Forall_forall. intros c Hc.
  apply List.in_map_iff in Hc as (b & <- & _). exact I.
Qed.

Section Plans.
Context (L : Lib) (W : World).

Ltac sound_fields :=
  unfold sound_plan; cbn [fst snd];
  split; [eexists _, _, _; reflexivity|];
  split; [first [apply file_chunks_are_body | repeat constructor]|];
  split; [rewrite injected_fields_head; reflexivity|];
  rewrite ?wire_file_chunks;
  change (wire []) with "";
  repeat match goal with |- context [wire [Body ?b]] => change (wire [Body b]) with b end;
  split;
  [ intros v Hv; rewrite response_fields_head in Hv; cbn in Hv;
    repeat (destruct Hv as [Hv|Hv]; [try discriminate Hv|]);
    try (injection Hv as <-; reflexivity); try contradiction
  | intros Hb; rewrite response_fields_head; cbn in Hb |- *;
    try (now contradiction Hb); tauto ].

Lemma sound_planned_error code message explain :
  sound_plan (planned_error L W code message explain).
Proof. unfold planned_error. sound_fields. Qed.

Lemma sound_planned_file headers path p :
  planned_file L W headers path = Some p -> sound_plan p.
Proof.
  unfold planned_file.
  destruct (Str.endswith path "/");
    [intros H; injection H as <-; apply sound_planned_error|].
  destruct (os.open_rb W path) as [[data st_mtime]| |];
    [|intros H; injection H as <-; apply sound_planned_error|discriminate].
  destruct (datetime.in_range st_mtime); [|discriminate]. cbn [negb].
  destruct (SimpleHTTPRequestHandler.not_modified L headers st_mtime);
    intros H; injection H as <-; sound_fields.
Qed.

Lemma sound_planned_listing request_path path p :
  planned_listing L W request_path path = Some p -> sound_plan p.
Proof.
  unfold planned_listing.
  destruct (os.listdir W path);
    [|intros H; injection H as <-; apply sound_planned_error|discriminate].
  destruct (listing_page L _ _ _); [|discriminate].
  intros H; injection H as <-. sound_fields.
Qed.

Lemma sound_planned root request_path headers p :
  planned L W root request_path headers = Some p -> sound_plan p.
Proof.
  unfold planned.
  destruct (os.isdir W _); [|apply sound_planned_file].
  destruct (negb _); [intros H; injection H as <-; sound_fields|].
  destruct (List.find _ _); [apply sound_planned_file | apply sound_planned_listing].
Qed.

(** Every response is what a sound plan sends: the header block alone for
    HEAD, the header block and the body for the other commands. *)
Lemma sound_answer root r out :
  answer L W root r = Some out ->
  exists p, sound_plan p /\ out = if String.eqb (r_command r) "HEAD" then [fst p] else sent p.
Proof.
  unfold answer.
  destruct (String.eqb_spec (r_command r) "OPTIONS") as [Hc|_].
  { intros H. injection H as <-. exists (head_of 200 "ok" (server_fields L W), []).
    rewrite Hc. split; [sound_fields | reflexivity]. }
  destruct (String.eqb (r_command r) "GET") eqn:Hg.
  { apply String.eqb_eq in Hg. rewrite Hg. cbn [String.eqb Ascii.eqb Bool.eqb].
    destruct (planned L W root (r_path r) (r_headers r)) as [p|] eqn:Hp; [|discriminate].
    intros H. injection H as <-. exists p. split; [|reflexivity].
    exact (sound_planned _ _ _ p Hp). }
  destruct (String.eqb (r_command r) "HEAD").
  { destruct (planned L W root (r_path r) (r_headers r)) as [p|] eqn:Hp; [|discriminate].
    intros H. injection H as <-. exists p. split; [|reflexivity].
    exact (sound_planned _ _ _ p Hp). }
  intros H. injection H as <-. eexists. split; [apply sound_planned_error | reflexivity].
Qed.

End Plans.

Lemma respond_sound L W root r out :
  CORSRequestHandler.respond L W root r = Some out ->
  exists p, sound_plan p /\ out = if String.eqb (r_command r) "HEAD" then [fst p] else sent p.
Proof. rewrite respond_answer. apply sound_answer. Qed.

(** The header block of a response is the first write. *)
Lemma respond_head_block L W root r out :
  CORSRequestHandler.respond L W root r = Some out ->
  exists code message fields body,
    out = head_of code message fields :: body
    /\ Forall is_body body
    /\ injected_fields out = cors_fields
    /\ (r_command r = "HEAD" -> body = []).
Proof.
  intros H. destruct (respond_sound L W root r out H)
    as ([c body] & ((code & message & fields & E) & Hb & Hi & _) & ->).
  cbn [fst snd] in *. subst c. exists code, message, fields.
  destruct (String.eqb_spec (r_command r) "HEAD") as [Hc|Hc].
  - exists []. split; [reflexivity|]. split; [constructor|]. split; [exact Hi | reflexivity].
  - exists body. split; [reflexivity|]. split; [exact Hb|].
    split; [|intros Hc'; contradiction].
    unfold sent. cbn [fst snd]. rewrite ?injected_fields_head in *. exact Hi.
Qed.

(** ** Responses *)




(** C4. An OPTIONS request, whatever its path, is answered with status 200
    and an empty body. *)
Theorem options_200_empty_body (L : Lib) (W : World) (getcwd : string) (r : Request) :
  r_command r = "OPTIONS" ->
  exists out,
    CORSRequestHandler.respond L W getcwd r = Some out
    /\ response_status out = Some 200%N
    /\ response_body out = "".
Proof.
  intros Hc. rewrite (respond_options L W getcwd r Hc).
  eexists. split; [reflexivity|]. split; reflexivity.
Qed.

Lemma options_200_empty_body_witness :
  r_command (example_request "OPTIONS" "/anything" []) = "OPTIONS"
  /\ exists out,
       CORSRequestHandler.respond example_lib (example_world "") "/srv"
         (example_request "OPTIONS" "/anything" []) = Some out
       /\ response_status out = Some 200%N
       /\ response_body out = "".
Proof.
  split; [reflexivity|].
  apply (options_200_empty_body example_lib (example_world "") "/srv"
           (example_request "OPTIONS" "/anything" [])).
  reflexivity.
Defined.

(** C8. A request whose method is not GET, HEAD or OPTIONS (POST, for
    one, although Access-Control-Allow-Methods names it) is answered with
    status 501, hence with 501 or 405. *)
Theorem other_methods_501 (L : Lib) (W : World) (getcwd : string) (r : Request) :
  r_command r <> "GET" -> r_command r <> "HEAD" -> r_command r <> "OPTIONS" ->
  exists out,
    CORSRequestHandler.respond L W getcwd r = Some out
    /\ response_status out = Some 501%N
    /\ (response_status out = Some 501%N \/ response_status out = Some 405%N).
Proof.
  intros H1 H2 H3. rewrite (respond_unsupported L W getcwd r H1 H2 H3).
  eexists. split; [reflexivity|]. split; [reflexivity | left; reflexivity].
Qed.

Lemma other_methods_501_witness :
  let r := example_request "POST" "/index.html" [] in
  r_command r <> "GET" /\ r_command r <> "HEAD" /\ r_command r <> "OPTIONS"
  /\ exists out,
       CORSRequestHandler.respond example_lib (example_world "") "/srv" r = Some out
       /\ response_status out = Some 501%N
       /\ (response_status out = Some 501%N \/ response_status out = Some 405%N).
Proof.
  cbn zeta. split; [discriminate|]. split; [discriminate|]. split; [discriminate|].
  apply (other_methods_501 example_lib (example_world "") "/srv"
           (example_request "POST" "/index.html" [])); discriminate.
Defined.

(** C10. The response to an OPTIONS request does not depend on the request's
    path or header fields, nor on the file system or the working directory:
    any two OPTIONS requests get status 200 and the same fields under the
    names that [end_headers] sends, and the same response altogether when
    the clock shows the same time. *)
Theorem options_ignores_request (L : Lib) (W1 W2 : World) (cwd1 cwd2 : string)
    (r1 r2 : Request) :
  r_command r1 = "OPTIONS" -> r_command r2 = "OPTIONS" ->
  exists out1 out2,
    CORSRequestHandler.respond L W1 cwd1 r1 = Some out1
    /\ CORSRequestHandler.respond L W2 cwd2 r2 = Some out2
    /\ response_status out1 = Some 200%N /\ response_status out2 = Some 200%N
    /\ injected_fields out1 = cors_fields /\ injected_fields out2 = cors_fields
    /\ (time W1 = time W2 -> out1 = out2).
Proof.
  intros H1 H2.
  rewrite (respond_options L W1 cwd1 r1 H1), (respond_options L W2 cwd2 r2 H2).
  eexists _, _. split; [reflexivity|]. split; [reflexivity|].
  repeat split.
  unfold server_fields, BaseHTTPRequestHandler.date_time_string. cbn. now intros ->.
Qed.

Lemma options_ignores_request_witness :
  let r1 := example_request "OPTIONS" "/index.html" [] in
  let r2 := example_request "OPTIONS" "/../../etc/passwd" [("Origin", "http://localhost")] in
  r_command r1 = "OPTIONS" /\ r_command r2 = "OPTIONS"
  /\ exists out1 out2,
       CORSRequestHandler.respond example_lib (example_world "a") "/srv" r1 = Some out1
       /\ CORSRequestHandler.respond example_lib (example_world "b") "/tmp" r2 = Some out2
       /\ response_status out1 = Some 200%N /\ response_status out2 = Some 200%N
       /\ injected_fields out1 = cors_fields /\ injected_fields out2 = cors_fields
       /\ (time (example_world "a") = time (example_world "b") -> out1 = out2).
Proof.
  cbn zeta. split; [reflexivity|]. split; [reflexivity|].
  apply (options_ignores_request example_lib (example_world "a") (example_world "b")
           "/srv" "/tmp"); reflexivity.
Defined.

(** ** Files inside and outside the served root *)

Section Agreement.
Context (L : Lib) (root : string) (W1 W2 : World).
Hypothesis agree : agree_inside root W1 W2.
Local Abbreviation eh := CORSRequestHandler.end_headers.

Lemma agree_lookup p : inside root p -> lookup_path W1 p = lookup_path W2 p.
Proof. destruct agree as (_ & H & _). apply H. Qed.

Lemma agree_invalid p : inside root p -> os.invalid W1 p = os.invalid W2 p.
Proof.
  intros Hp. destruct agree as (_ & H & _). destruct (H p Hp) as [_ Hu].
  unfold os.invalid. now rewrite Hu.
Qed.

Lemma agree_isdir p : inside root p -> os.isdir W1 p = os.isdir W2 p.
Proof. intros Hp. unfold os.isdir. now rewrite (agree_invalid p Hp), (agree_lookup p Hp). Qed.

Lemma agree_isfile p : inside root p -> os.isfile W1 p = os.isfile W2 p.
Proof. intros Hp. unfold os.isfile. now rewrite (agree_invalid p Hp), (agree_lookup p Hp). Qed.

Lemma agree_open_rb p : inside root p -> os.open_rb W1 p = os.open_rb W2 p.
Proof. intros Hp. unfold os.open_rb. now rewrite (agree_invalid p Hp), (agree_lookup p Hp). Qed.

Lemma agree_listdir p : inside root p -> os.listdir W1 p = os.listdir W2 p.
Proof. intros Hp. unfold os.listdir. now rewrite (agree_invalid p Hp), (agree_lookup p Hp). Qed.

Lemma agree_send_response :
  SimpleHTTPRequestHandler.send_response L W1 = SimpleHTTPRequestHandler.send_response L W2.
Proof.
  destruct agree as (Ht & _).
  unfold SimpleHTTPRequestHandler.send_response, BaseHTTPRequestHandler.send_response,
    BaseHTTPRequestHandler.date_time_string.
  now rewrite Ht.
Qed.

Lemma agree_send_error :
  SimpleHTTPRequestHandler.send_error L W1 eh = SimpleHTTPRequestHandler.send_error L W2 eh.
Proof.
  pose proof agree_send_response as H.
  unfold SimpleHTTPRequestHandler.send_error, BaseHTTPRequestHandler.send_error.
  unfold SimpleHTTPRequestHandler.send_response in H. now rewrite H.
Qed.

Lemma agree_send_head_file p h :
  inside root p ->
  SimpleHTTPRequestHandler.send_head_file L W1 eh p h
  = SimpleHTTPRequestHandler.send_head_file L W2 eh p h.
Proof.
  intros Hp. unfold SimpleHTTPRequestHandler.send_head_file.
  rewrite (agree_open_rb p Hp), agree_send_error, agree_send_response.
  destruct agree as (Ht & _).
  unfold BaseHTTPRequestHandler.date_time_string. now rewrite Ht.
Qed.

Lemma agree_list_directory p h :
  inside root p ->
  SimpleHTTPRequestHandler.list_directory L W1 eh p h
  = SimpleHTTPRequestHandler.list_directory L W2 eh p h.
Proof.
  intros Hp. unfold SimpleHTTPRequestHandler.list_directory.
  rewrite agree_send_error, agree_send_response.
  rewrite <- (agree_listdir p Hp).
  destruct (os.listdir W1 p) as [names| |] eqn:E; [|reflexivity|reflexivity].
  assert (Hm : forall f g : string -> string * bool * bool,
             (forall name, In name names -> f name = g name) -> map f names = map g names).
  { intros f g. apply map_ext_in. }
  rewrite (Hm _ (fun name =>
                   (name, os.isdir W2 (posixpath.join p name), islink W2 (posixpath.join p name))));
    [reflexivity|].
  intros name Hn. destruct agree as (_ & _ & Hc).
  destruct (Hc p names name Hp E Hn) as (H1 & H2 & H3).
  unfold os.isdir, os.invalid. now rewrite H1, H2, H3.
Qed.

Lemma simple_index_html : simple_name "index.html".
Proof. repeat split; discriminate. Qed.

Lemma simple_index_htm : simple_name "index.htm".
Proof. repeat split; discriminate. Qed.

Lemma agree_send_head h :
  directory h = root ->
  SimpleHTTPRequestHandler.send_head L W1 eh h = SimpleHTTPRequestHandler.send_head L W2 eh h.
Proof.
  intros Hd. unfold SimpleHTTPRequestHandler.send_head. rewrite Hd.
  pose proof (translate_path_inside L root (self_path h)) as Hp.
  set (p := SimpleHTTPRequestHandler.translate_path L root (self_path h)) in *.
  pose proof (inside_child root p _ Hp simple_index_html) as Hi1.
  pose proof (inside_child root p _ Hp simple_index_htm) as Hi2.
  unfold List.find.
  rewrite <- (agree_isdir p Hp), <- (agree_isfile _ Hi1), <- (agree_isfile _ Hi2).
  rewrite agree_send_response.
  destruct (os.isdir W1 p); [|now apply agree_send_head_file].
  destruct (negb _); [reflexivity|].
  destruct (os.isfile W1 (posixpath.join p "index.html")); [now apply agree_send_head_file|].
  destruct (os.isfile W1 (posixpath.join p "index.htm")); [now apply agree_send_head_file|].
  now apply agree_list_directory.
Qed.

(** The response is the same in two worlds that agree under the path names
    inside the served root: no other path name is looked up. *)
Lemma agree_respond r :
  CORSRequestHandler.respond L W1 root r = CORSRequestHandler.respond L W2 root r.
Proof.
  unfold CORSRequestHandler.respond, CORSRequestHandler.handle_one_request,
    BaseHTTPRequestHandler.handle_one_request.
  rewrite !attrs_lookup.
  destruct (String.eqb _ "OPTIONS").
  { unfold CORSRequestHandler.do_OPTIONS, CORSRequestHandler.send_response.
    now rewrite agree_send_response. }
  destruct (String.eqb _ "GET").
  { unfold SimpleHTTPRequestHandler.do_GET. now rewrite agree_send_head. }
  destruct (String.eqb _ "HEAD").
  { unfold SimpleHTTPRequestHandler.do_HEAD. now rewrite agree_send_head. }
  pose proof agree_send_error as H. unfold SimpleHTTPRequestHandler.send_error in H.
  now rewrite H.
Qed.

End Agreement.

(** ** GET *)

Lemma respond_get_planned L W root r :
  r_command r = "GET" ->
  CORSRequestHandler.respond L W root r
  = sent <$> planned L W root (r_path r) (r_headers r).
Proof. intros Hc. rewrite respond_answer. unfold answer. now rewrite Hc. Qed.

Lemma isdir_valid W p : os.isdir W p = true -> os.invalid W p = false.
Proof. unfold os.isdir. now destruct (os.invalid W p). Qed.

Lemma isfile_not_isdir W p : os.isfile W p = true -> os.isdir W p = false.
Proof.
  unfold os.isfile, os.isdir. destruct (os.invalid W p); [discriminate|].
  now destruct (lookup_path W p) as [[]|].
Qed.

Lemma respond_get_missing L W root r :
  r_command r = "GET" ->
  lookup_path W (SimpleHTTPRequestHandler.translate_path L root (r_path r)) = None ->
  os.invalid W (SimpleHTTPRequestHandler.translate_path L root (r_path r)) = false ->
  CORSRequestHandler.respond L W root r =
    Some [head_of 404 "File not found" (error_fields L W not_found_body); Body not_found_body].
Proof.
  intros Hc Hl Hv. rewrite (respond_get_planned L W root r Hc).
  unfold planned, planned_file, os.isdir, os.open_rb. rewrite Hl, Hv. cbn [negb andb].
  now destruct (Str.endswith _ "/").
Qed.

Lemma respond_get_file L W root r data st_mtime :
  r_command r = "GET" ->
  let path := SimpleHTTPRequestHandler.translate_path L root (r_path r) in
  lookup_path W path = Some (File true data st_mtime) ->
  os.invalid W path = false ->
  Str.endswith path "/" = false ->
  datetime.in_range st_mtime = true ->
  CORSRequestHandler.respond L W root r =
    Some (if SimpleHTTPRequestHandler.not_modified L (r_headers r) st_mtime
          then [head_of 304 "Not Modified" (server_fields L W)]
          else head_of 200 "OK" (file_fields L W (guess_type L path) data st_mtime)
               :: file_chunks data).
Proof.
  intros Hc p Hl Hv Hs Hr. rewrite (respond_get_planned L W root r Hc).
  unfold planned, planned_file, os.isdir, os.open_rb. fold p. rewrite Hl, Hv, Hs, Hr.
  cbn [negb andb].
  now destruct (SimpleHTTPRequestHandler.not_modified L (r_headers r) st_mtime).
Qed.

Lemma response_body_cons c rest :
  (exists ls, c = Head ls) -> response_body (c :: rest) = wire rest.
Proof. now intros (ls & ->). Qed.





(** The two example worlds differ in a file outside [/srv] only. *)
Lemma example_worlds_agree a b : agree_inside "/srv" (example_world a) (example_world b).
Proof.
  split; [reflexivity|]. split.
  - intros p Hp. apply inside_prefix in Hp. split; [|reflexivity]. cbn. unfold example_files.
    destruct (String.eqb p "/srv" || String.eqb p "/srv/"); [reflexivity|].
    destruct (String.eqb p "/srv/index.html"); [reflexivity|].
    destruct (String.eqb_spec p "/etc/passwd") as [->|_]; [discriminate | reflexivity].
  - intros p l name _ Hl Hn. split; [|split; reflexivity].
    unfold os.listdir, os.invalid in Hl. cbn [unencodable example_world] in Hl.
    rewrite orb_false_r in Hl. destruct (Str.has_nul p); [discriminate|].
    cbn in Hl. unfold example_files in Hl.
    destruct (String.eqb p "/srv" || String.eqb p "/srv/") eqn:E.
    + injection Hl as <-. destruct Hn as [<-|[]].
      apply orb_true_iff in E as [E|E]; apply String.eqb_eq in E; subst p; reflexivity.
    + destruct (String.eqb p "/srv/index.html"); [discriminate|].
      destruct (String.eqb p "/etc/passwd"); discriminate.
Qed.








(** C7. When the interrupt arrives while the server serves, the process
    prints the shutdown message, closes the listening socket and exits with
    status 0. *)
Theorem interrupt_exits_0 (L : Lib) (__file__ getcwd : string) (before after : list event) :
  let run := main L __file__ getcwd true (before ++ KeyboardInterrupt :: after) in
  last (stdout run) = Some (BaseHTTPRequestHandler.LF +:+ "Server stopped.")
  /\ listening run = []
  /\ exit_status run = Some 0%N.
Proof.
  cbn zeta. rewrite main_serving, interrupted_app.
  cbn [interrupted existsb is_interrupt orb]. rewrite orb_true_r. repeat split.
Qed.

(** C9. The server listens on one socket: a TCP socket (AF_INET,
    SOCK_STREAM) bound to port 3012 on all interfaces, from the moment the
    bind succeeds until the interrupt; it never listens on anything else. *)
Theorem listens_on_3012_only (L : Lib) (__file__ getcwd : string) (bind_ok : bool)
    (events : list event) :
  listening (main L __file__ getcwd bind_ok events)
    = if bind_ok && negb (interrupted events)
      then [ {| family := AF_INET; kind := SOCK_STREAM; host := ""; port := 3012 |} ]
      else [].
Proof.
  destruct bind_ok.
  - rewrite main_serving. now destruct (interrupted events).
  - now rewrite main_bind_failed.
Qed.


(** ** More on [end_headers] and [do_OPTIONS] *)

Lemma has_headers_buffer_append l h :
  BaseHTTPRequestHandler.has_headers (BaseHTTPRequestHandler.buffer_append l h)
  = BaseHTTPRequestHandler.has_headers h.
Proof. reflexivity. Qed.

Lemma send_header_plain k v h :
  BaseHTTPRequestHandler.has_headers h = true ->
  String.eqb (Str.lower k) "connection" = false ->
  BaseHTTPRequestHandler.send_header k v h
  = Some (BaseHTTPRequestHandler.buffer_append (Field k v) h).
Proof.
  intros Hh Hk. unfold BaseHTTPRequestHandler.send_header. now rewrite Hh, Hk.
Qed.

(** X3. On a handler that sends headers, [end_headers] writes one block,
    the buffered lines followed by the four fields and the blank line, leaves
    the buffer empty and changes nothing else, [close_connection] included.
    It also works when nothing was buffered before, where the inherited
    [end_headers] alone raises AttributeError. *)
Theorem end_headers_effect (h : Handler) :
  BaseHTTPRequestHandler.has_headers h = true ->
  CORSRequestHandler.end_headers h
  = Some (set_buffer (Some [])
            (write (Head (default [] (_headers_buffer h) ++
                          [ Field "Access-Control-Allow-Origin" "*";
                            Field "Access-Control-Allow-Methods" "GET, POST, OPTIONS";
                            Field "Access-Control-Allow-Headers" "*";
                            Field "Cache-Control" "no-cache, no-store, must-revalidate";
                            Blank ])) h))
  /\ (_headers_buffer h = None -> BaseHTTPRequestHandler.end_headers h = None).
Proof.
  intros Hh. split.
  - unfold CORSRequestHandler.end_headers, CORSRequestHandler.send_header, seq.
    rewrite send_header_plain by (assumption || reflexivity). cbn [mbind option_bind].
    rewrite send_header_plain by (assumption || reflexivity). cbn [mbind option_bind].
    rewrite send_header_plain by (assumption || reflexivity). cbn [mbind option_bind].
    rewrite send_header_plain by (assumption || reflexivity). cbn [mbind option_bind].
    unfold BaseHTTPRequestHandler.end_headers.
    rewrite !has_headers_buffer_append, Hh.
    destruct h as [c p v hs d b w cc]. cbn. rewrite <- !app_assoc. reflexivity.
  - intros Hb. unfold BaseHTTPRequestHandler.end_headers. now rewrite Hh, Hb.
Qed.

Lemma end_headers_effect_witness :
  let h := CORSRequestHandler.new "/srv" (example_request "GET" "/index.html" []) in
  BaseHTTPRequestHandler.has_headers h = true
  /\ CORSRequestHandler.end_headers h
     = Some (set_buffer (Some [])
               (write (Head [ Field "Access-Control-Allow-Origin" "*";
                              Field "Access-Control-Allow-Methods" "GET, POST, OPTIONS";
                              Field "Access-Control-Allow-Headers" "*";
                              Field "Cache-Control" "no-cache, no-store, must-revalidate";
                              Blank ]) h))
  /\ BaseHTTPRequestHandler.end_headers h = None.
Proof.
  cbn zeta.
  destruct (end_headers_effect
              (CORSRequestHandler.new "/srv" (example_request "GET" "/index.html" []))
              eq_refl) as [H1 H2].
  split; [reflexivity|]. split; [exact H1 | apply H2; reflexivity].
Defined.

(** X4. For a handler whose [request_version] is HTTP/0.9, as a request line
    without a version leaves it, neither the status line nor any field is
    sent: [send_response] followed by [end_headers] writes nothing and leaves
    the handler as it was, so the four fields are not sent either. *)
Theorem http09_gets_no_header_block (L : Lib) (W : World) (h : Handler)
    (code : N) (message : option string) :
  request_version h = "HTTP/0.9" ->
  CORSRequestHandler.end_headers h = Some h
  /\ (CORSRequestHandler.send_response L W code message >> CORSRequestHandler.end_headers) h
     = Some h.
Proof.
  intros Hv. pose proof (end_headers_http09 h Hv) as He. split; [exact He|].
  assert (Hs : forall k v, String.eqb (Str.lower k) "connection" = false ->
                           BaseHTTPRequestHandler.send_header k v h = Some h).
  { intros k v Hk. unfold BaseHTTPRequestHandler.send_header, BaseHTTPRequestHandler.has_headers.
    now rewrite Hv, Hk. }
  unfold CORSRequestHandler.send_response, SimpleHTTPRequestHandler.send_response,
    BaseHTTPRequestHandler.send_response, seq.
  unfold BaseHTTPRequestHandler.send_response_only at 1.
  unfold BaseHTTPRequestHandler.has_headers at 1. rewrite Hv.
  cbn [String.eqb Ascii.eqb Bool.eqb negb mbind option_bind].
  rewrite !Hs by reflexivity. cbn [mbind option_bind].
  rewrite !Hs by reflexivity. cbn [mbind option_bind]. exact He.
Qed.

Lemma http09_gets_no_header_block_witness :
  request_version example_http09_handler = "HTTP/0.9"
  /\ CORSRequestHandler.end_headers example_http09_handler = Some example_http09_handler
  /\ (CORSRequestHandler.send_response example_lib (example_world "") 200 None
      >> CORSRequestHandler.end_headers) example_http09_handler
     = Some example_http09_handler.
Proof.
  split; [reflexivity|].
  apply (http09_gets_no_header_block example_lib (example_world "") example_http09_handler
           200 None).
  reflexivity.
Defined.

(** X5. The response to OPTIONS is the status line [HTTP/1.0 200 ok], the
    Server and Date fields of [send_response], the four fields of
    [end_headers] and the blank line: no Content-Length, no Content-Type, no
    body. *)
Theorem options_response_exact (L : Lib) (W : World) (root : string) (r : Request) :
  r_command r = "OPTIONS" ->
  CORSRequestHandler.respond L W root r
  = Some [ Head [ Status "HTTP/1.0" 200 "ok";
                  Field "Server" ("SimpleHTTP/0.6 " +:+ sys_version L);
                  Field "Date" (formatdate L (time W));
                  Field "Access-Control-Allow-Origin" "*";
                  Field "Access-Control-Allow-Methods" "GET, POST, OPTIONS";
                  Field "Access-Control-Allow-Headers" "*";
                  Field "Cache-Control" "no-cache, no-store, must-revalidate";
                  Blank ] ].
Proof. intros Hc. now rewrite (respond_options L W root r Hc). Qed.

Lemma options_response_exact_witness :
  let r := example_request "OPTIONS" "/anything" [("Origin", "http://localhost:5173")] in
  r_command r = "OPTIONS"
  /\ CORSRequestHandler.respond example_lib (example_world "") "/srv" r
     = Some [ Head [ Status "HTTP/1.0" 200 "ok";
                     Field "Server" ("SimpleHTTP/0.6 " +:+ sys_version example_lib);
                     Field "Date" (formatdate example_lib (time (example_world "")));
                     Field "Access-Control-Allow-Origin" "*";
                     Field "Access-Control-Allow-Methods" "GET, POST, OPTIONS";
                     Field "Access-Control-Allow-Headers" "*";
                     Field "Cache-Control" "no-cache, no-store, must-revalidate";
                     Blank ] ].
Proof.
  cbn zeta. split; [reflexivity|].
  apply (options_response_exact example_lib (example_world "") "/srv"
           (example_request "OPTIONS" "/anything" [("Origin", "http://localhost:5173")])).
  reflexivity.
Defined.

(** ** More on the responses to GET and HEAD *)

Lemma bodies_of body : Forall is_body body -> exists blocks, body = map Body blocks.
Proof.
  induction 1 as [|c body Hc _ (blocks & ->)]; [now exists []|].
  destruct c as [|data]; [contradiction|]. now exists (data :: blocks).
Qed.

(** X1. Every response to a request with an HTTP/1.x version is one
    header block, made of a status line of protocol HTTP/1.0, the fields of
    the method that answers, the four fields of [end_headers] in the order of
    the source and the blank line, followed by writes of body bytes only, and
    by nothing for HEAD. *)
Theorem response_is_one_block (L : Lib) (W : World) (root : string) (r : Request)
    (out : list chunk) :
  CORSRequestHandler.respond L W root r = Some out ->
  exists code message fields blocks,
    out = Head (Status "HTTP/1.0" code message
                  :: fields ++
                     [ Field "Access-Control-Allow-Origin" "*";
                       Field "Access-Control-Allow-Methods" "GET, POST, OPTIONS";
                       Field "Access-Control-Allow-Headers" "*";
                       Field "Cache-Control" "no-cache, no-store, must-revalidate";
                       Blank ])
          :: map Body blocks
    /\ (r_command r = "HEAD" -> blocks = []).
Proof.
  intros H.
  destruct (respond_head_block L W root r out H)
    as (code & message & fields & body & -> & Hb & _ & Hh).
  destruct (bodies_of body Hb) as (blocks & ->).
  exists code, message, fields, blocks. split; [reflexivity|].
  intros Hc. specialize (Hh Hc). now destruct blocks.
Qed.

Lemma response_is_one_block_witness :
  exists out code message fields blocks,
    CORSRequestHandler.respond example_lib (example_world "") "/srv"
      (example_request "GET" "/index.html" []) = Some out
    /\ out = Head (Status "HTTP/1.0" code message
                     :: fields ++
                        [ Field "Access-Control-Allow-Origin" "*";
                          Field "Access-Control-Allow-Methods" "GET, POST, OPTIONS";
                          Field "Access-Control-Allow-Headers" "*";
                          Field "Cache-Control" "no-cache, no-store, must-revalidate";
                          Blank ])
             :: map Body blocks.
Proof.
  destruct (response_is_one_block example_lib (example_world "") "/srv"
              (example_request "GET" "/index.html" []) _ scenario_get_index)
    as (code & message & fields & blocks & E & _).
  eexists _, code, message, fields, blocks. split; [exact scenario_get_index | exact E].
Defined.

(** X2. In every response to a request with an HTTP/1.x version each of
    the four names of [end_headers] occurs exactly once, with the value of the
    source: no inherited method sends a field under one of them. *)
Theorem cors_fields_exactly_once (L : Lib) (W : World) (root : string) (r : Request)
    (out : list chunk) :
  CORSRequestHandler.respond L W root r = Some out ->
  List.filter
    (fun kv => existsb (String.eqb (fst kv))
                 [ "Access-Control-Allow-Origin"; "Access-Control-Allow-Methods";
                   "Access-Control-Allow-Headers"; "Cache-Control" ])
    (response_fields out)
  = [ ("Access-Control-Allow-Origin", "*");
      ("Access-Control-Allow-Methods", "GET, POST, OPTIONS");
      ("Access-Control-Allow-Headers", "*");
      ("Cache-Control", "no-cache, no-store, must-revalidate") ].
Proof.
  intros H.
  destruct (respond_head_block L W root r out H) as (_ & _ & _ & _ & _ & _ & Hi & _).
  exact Hi.
Qed.

Lemma cors_fields_exactly_once_witness :
  exists out,
    CORSRequestHandler.respond example_lib (example_world "") "/srv"
      (example_request "GET" "/index.html" []) = Some out
    /\ List.filter
         (fun kv => existsb (String.eqb (fst kv))
                      [ "Access-Control-Allow-Origin"; "Access-Control-Allow-Methods";
                        "Access-Control-Allow-Headers"; "Cache-Control" ])
         (response_fields out)
       = [ ("Access-Control-Allow-Origin", "*");
           ("Access-Control-Allow-Methods", "GET, POST, OPTIONS");
           ("Access-Control-Allow-Headers", "*");
           ("Cache-Control", "no-cache, no-store, must-revalidate") ].
Proof.
  eexists. split; [exact scenario_get_index|].
  exact (cors_fields_exactly_once example_lib (example_world "") "/srv"
           (example_request "GET" "/index.html" []) _ scenario_get_index).
Defined.

(** X6. The response to HEAD is the header block of the response to GET for
    the same path and header fields, without the body: the same status, the
    same Content-Length, the same fields; and HEAD is answered exactly when
    GET is. *)
Theorem head_is_get_without_body (L : Lib) (W : World) (root : string) (r r' : Request) :
  r_command r = "GET" -> r_command r' = "HEAD" ->
  r_path r' = r_path r -> r_headers r' = r_headers r ->
  CORSRequestHandler.respond L W root r' = take 1 <$> CORSRequestHandler.respond L W root r.
Proof.
  intros Hc Hc' Hp Hh. rewrite !respond_answer. unfold answer.
  rewrite Hc, Hc', Hp, Hh. cbn [String.eqb Ascii.eqb Bool.eqb].
  now destruct (planned L W root (r_path r) (r_headers r)).
Qed.

Lemma head_is_get_without_body_witness :
  let r := example_request "GET" "/index.html" [] in
  let r' := example_request "HEAD" "/index.html" [] in
  r_command r = "GET" /\ r_command r' = "HEAD"
  /\ r_path r' = r_path r /\ r_headers r' = r_headers r
  /\ CORSRequestHandler.respond example_lib (example_world "") "/srv" r'
     = take 1 <$> CORSRequestHandler.respond example_lib (example_world "") "/srv" r
  /\ exists head,
       CORSRequestHandler.respond example_lib (example_world "") "/srv" r
       = Some [head; Body "<h1>hi</h1>"]
       /\ CORSRequestHandler.respond example_lib (example_world "") "/srv" r' = Some [head].
Proof.
  cbn zeta. do 4 (split; [reflexivity|]).
  pose proof (head_is_get_without_body example_lib (example_world "") "/srv"
                (example_request "GET" "/index.html" [])
                (example_request "HEAD" "/index.html" []) eq_refl eq_refl eq_refl eq_refl) as H.
  split; [exact H|]. rewrite H, scenario_get_index. eexists. split; reflexivity.
Defined.



(** ** Directories, unreadable files and query strings *)

(** X8. A GET request for a directory that is named without its trailing
    slash is answered with status 301, a Location field that adds the slash to
    the path of the URL and keeps its other parts, Content-Length 0 and no
    body; neither an index file nor a listing is sent. *)
Theorem directory_without_slash_redirects (L : Lib) (W : World) (root : string) (r : Request) :
  r_command r = "GET" ->
  os.isdir W (SimpleHTTPRequestHandler.translate_path L root (r_path r)) = true ->
  Str.endswith (url_path (urlsplit L (r_path r))) "/" = false ->
  exists out,
    CORSRequestHandler.respond L W root r = Some out
    /\ response_status out = Some 301%N
    /\ In ("Location",
           urlunsplit L {| scheme := scheme (urlsplit L (r_path r));
                           netloc := netloc (urlsplit L (r_path r));
                           url_path := url_path (urlsplit L (r_path r)) +:+ "/";
                           query := query (urlsplit L (r_path r));
                           fragment := fragment (urlsplit L (r_path r)) |})
          (response_fields out)
    /\ In ("Content-Length", "0") (response_fields out)
    /\ response_body out = "".
Proof.
  intros Hc Hd Hs. rewrite (respond_get_planned L W root r Hc).
  unfold planned. rewrite Hd, Hs. cbn [negb fmap option_fmap option_map].
  eexists. split; [reflexivity|]. split; [reflexivity|].
  unfold sent. cbn [fst snd]. rewrite response_fields_head. cbn. unfold redirect_url. tauto.
Qed.

Lemma directory_without_slash_redirects_witness :
  let r := example_request "GET" "/srv" [] in
  r_command r = "GET"
  /\ os.isdir (example_world "")
       (SimpleHTTPRequestHandler.translate_path example_lib "/" (r_path r)) = true
  /\ Str.endswith (url_path (urlsplit example_lib (r_path r))) "/" = false
  /\ exists out,
       CORSRequestHandler.respond example_lib (example_world "") "/" r = Some out
       /\ response_status out = Some 301%N
       /\ In ("Location", "/srv/") (response_fields out)
       /\ In ("Content-Length", "0") (response_fields out)
       /\ response_body out = "".
Proof.
  cbn zeta. repeat (split; [reflexivity|]).
  apply (directory_without_slash_redirects example_lib (example_world "") "/"
           (example_request "GET" "/srv" [])); reflexivity.
Defined.

(** X9. A request for a directory, named with its trailing slash, in which
    [index.html] is a regular file is answered exactly as the request for that
    file, whether or not [index.htm] exists too. *)
Theorem directory_serves_index_html (L : Lib) (W : World) (root : string) (r r' : Request) :
  r_command r' = r_command r -> r_headers r' = r_headers r ->
  os.isdir W (SimpleHTTPRequestHandler.translate_path L root (r_path r)) = true ->
  Str.endswith (url_path (urlsplit L (r_path r))) "/" = true ->
  os.isfile W (posixpath.join (SimpleHTTPRequestHandler.translate_path L root (r_path r))
                 "index.html") = true ->
  SimpleHTTPRequestHandler.translate_path L root (r_path r')
  = posixpath.join (SimpleHTTPRequestHandler.translate_path L root (r_path r)) "index.html" ->
  CORSRequestHandler.respond L W root r = CORSRequestHandler.respond L W root r'.
Proof.
  intros Hc Hh Hd Hs Hi Hp. rewrite !respond_answer. unfold answer. rewrite Hc, Hh.
  assert (E : planned L W root (r_path r) (r_headers r)
              = planned L W root (r_path r') (r_headers r)).
  { unfold planned. rewrite Hd, Hs, Hp. cbn [negb List.find]. rewrite Hi.
    now rewrite (isfile_not_isdir W _ Hi). }
  rewrite E.
  destruct (String.eqb (r_command r) "OPTIONS"); [reflexivity|].
  destruct (String.eqb (r_command r) "GET"); [reflexivity|].
  destruct (String.eqb (r_command r) "HEAD"); reflexivity.
Qed.

Lemma directory_serves_index_html_witness :
  let r := example_request "GET" "/" [] in
  let r' := example_request "GET" "/index.html" [] in
  r_command r' = r_command r /\ r_headers r' = r_headers r
  /\ os.isdir (example_world "")
       (SimpleHTTPRequestHandler.translate_path example_lib "/srv" (r_path r)) = true
  /\ Str.endswith (url_path (urlsplit example_lib (r_path r))) "/" = true
  /\ os.isfile (example_world "")
       (posixpath.join (SimpleHTTPRequestHandler.translate_path example_lib "/srv" (r_path r))
          "index.html") = true
  /\ SimpleHTTPRequestHandler.translate_path example_lib "/srv" (r_path r')
     = posixpath.join (SimpleHTTPRequestHandler.translate_path example_lib "/srv" (r_path r))
         "index.html"
  /\ CORSRequestHandler.respond example_lib (example_world "") "/srv" r
     = CORSRequestHandler.respond example_lib (example_world "") "/srv" r'.
Proof.
  cbn zeta. do 6 (split; [reflexivity|]).
  apply (directory_serves_index_html example_lib (example_world "") "/srv"
           (example_request "GET" "/" []) (example_request "GET" "/index.html" []));
    reflexivity.
Defined.

(** X10. A GET request for a directory, named with its trailing slash, that
    has neither [index.html] nor [index.htm] as a regular file is answered
    with the listing of its entries, each with its isdir and islink flags, as
    [text/html] in the file system encoding, the page being built from the
    request path, the directory's path and the entries; when the page cannot
    be encoded the handler raises and nothing is sent, and when the directory
    cannot be listed the answer is status 404. *)
Theorem directory_without_index_is_listed (L : Lib) (W : World) (root : string) (r : Request) :
  r_command r = "GET" ->
  os.isdir W (SimpleHTTPRequestHandler.translate_path L root (r_path r)) = true ->
  Str.endswith (url_path (urlsplit L (r_path r))) "/" = true ->
  os.isfile W (posixpath.join (SimpleHTTPRequestHandler.translate_path L root (r_path r))
                 "index.html") = false ->
  os.isfile W (posixpath.join (SimpleHTTPRequestHandler.translate_path L root (r_path r))
                 "index.htm") = false ->
  match os.listdir W (SimpleHTTPRequestHandler.translate_path L root (r_path r)) with
  | os.Returned names =>
      match listing_page L (r_path r)
              (SimpleHTTPRequestHandler.translate_path L root (r_path r))
              (map (fun name =>
                      (name,
                       os.isdir W
                         (posixpath.join
                            (SimpleHTTPRequestHandler.translate_path L root (r_path r)) name),
                       islink W
                         (posixpath.join
                            (SimpleHTTPRequestHandler.translate_path L root (r_path r)) name)))
                   names) with
      | Some encoded =>
          exists out,
            CORSRequestHandler.respond L W root r = Some out
            /\ response_status out = Some 200%N
            /\ In ("Content-type", "text/html; charset=" +:+ filesystemencoding L)
                  (response_fields out)
            /\ In ("Content-Length", Str.of_N (N.of_nat (String.length encoded)))
                  (response_fields out)
            /\ response_body out = encoded
      | None => CORSRequestHandler.respond L W root r = None
      end
  | os.OSError =>
      exists out,
        CORSRequestHandler.respond L W root r = Some out
        /\ response_status out = Some 404%N
  | os.ValueError => False
  end.
Proof.
  intros Hc Hd Hs H1 H2. rewrite (respond_get_planned L W root r Hc).
  unfold planned, planned_listing. rewrite Hd, Hs. cbn [negb List.find]. rewrite H1, H2.
  pose proof (isdir_valid W _ Hd) as Hv.
  destruct (os.listdir W _) as [names| |] eqn:El.
  - fold (listed W (SimpleHTTPRequestHandler.translate_path L root (r_path r)) names).
    destruct (listing_page L _ _ _) as [encoded|]; [|reflexivity].
    eexists. split; [reflexivity|]. unfold sent. cbn [fst snd]. split; [reflexivity|].
    rewrite response_fields_head. split; [cbn; tauto|]. split; [cbn; tauto|].
    unfold response_body, head_of. apply wire_file_chunks.
  - eexists. split; reflexivity.
  - unfold os.listdir in El. rewrite Hv in El. now destruct (lookup_path W _) as [[|[]]|].
Qed.

Lemma directory_without_index_is_listed_witness :
  let W := example_listing_world in
  let r := example_request "GET" "/docs/" [] in
  r_command r = "GET"
  /\ os.isdir W (SimpleHTTPRequestHandler.translate_path example_lib "/srv" (r_path r)) = true
  /\ Str.endswith (url_path (urlsplit example_lib (r_path r))) "/" = true
  /\ os.isfile W (posixpath.join
                    (SimpleHTTPRequestHandler.translate_path example_lib "/srv" (r_path r))
                    "index.html") = false
  /\ os.isfile W (posixpath.join
                    (SimpleHTTPRequestHandler.translate_path example_lib "/srv" (r_path r))
                    "index.htm") = false
  /\ exists out,
       CORSRequestHandler.respond example_lib W "/srv" r = Some out
       /\ response_status out = Some 200%N
       /\ In ("Content-type", "text/html; charset=utf-8") (response_fields out)
       /\ In ("Content-Length", "41") (response_fields out)
       /\ response_body out = "Directory listing for /docs/: a.txt b.txt".
Proof.
  cbn zeta. repeat (split; [reflexivity|]).
  exact (directory_without_index_is_listed example_lib example_listing_world "/srv"
           (example_request "GET" "/docs/" []) eq_refl eq_refl eq_refl eq_refl eq_refl).
Defined.

(** X11. A GET request whose translated path is not a directory and either
    ends in a slash or cannot be opened for an OSError (nothing there, or a
    file without read permission) is answered with status 404 and the error
    page for "File not found". *)
Theorem get_unopenable_404 (L : Lib) (W : World) (root : string) (r : Request) :
  r_command r = "GET" ->
  os.isdir W (SimpleHTTPRequestHandler.translate_path L root (r_path r)) = false ->
  Str.endswith (SimpleHTTPRequestHandler.translate_path L root (r_path r)) "/" = true
  \/ os.open_rb W (SimpleHTTPRequestHandler.translate_path L root (r_path r)) = os.OSError ->
  exists out,
    CORSRequestHandler.respond L W root r = Some out
    /\ response_status out = Some 404%N
    /\ response_body out = error_body 404 "File not found" "Nothing matches the given URI".
Proof.
  intros Hc Hd Ho. rewrite (respond_get_planned L W root r Hc).
  unfold planned, planned_file. rewrite Hd.
  destruct (Str.endswith _ "/"); [eexists; split; [reflexivity|]; split; reflexivity|].
  destruct Ho as [Ho|Ho]; [discriminate|]. rewrite Ho.
  eexists. split; [reflexivity|]. split; reflexivity.
Qed.

Lemma get_unopenable_404_witness :
  let W := example_listing_world in
  let r := example_request "GET" "/secret.txt" [] in
  r_command r = "GET"
  /\ os.isdir W (SimpleHTTPRequestHandler.translate_path example_lib "/srv" (r_path r)) = false
  /\ os.open_rb W (SimpleHTTPRequestHandler.translate_path example_lib "/srv" (r_path r))
     = os.OSError
  /\ exists out,
       CORSRequestHandler.respond example_lib W "/srv" r = Some out
       /\ response_status out = Some 404%N
       /\ response_body out = error_body 404 "File not found" "Nothing matches the given URI".
Proof.
  cbn zeta. repeat (split; [reflexivity|]).
  apply (get_unopenable_404 example_lib example_listing_world "/srv"
           (example_request "GET" "/secret.txt" []));
    [reflexivity | reflexivity | right; reflexivity].
Defined.

Lemma before_first_app c p t :
  Str.before_first c p = p -> Str.before_first c (p +:+ t) = p +:+ Str.before_first c t.
Proof.
  induction p as [|a p IH]; [reflexivity|].
  change (String a p +:+ t) with (String a (p +:+ t)).
  change (String a p +:+ Str.before_first c t) with (String a (p +:+ Str.before_first c t)).
  cbn [Str.before_first]. destruct (Ascii.eqb a c); [discriminate|].
  intros H. injection H as H. now rewrite IH.
Qed.

Lemma before_first_cut c p t :
  Str.before_first c p = p -> Str.before_first c (p +:+ String c t) = p.
Proof.
  intros H. rewrite (before_first_app c p _ H). cbn [Str.before_first].
  rewrite Ascii.eqb_refl. clear H. induction p as [|a p IH]; [reflexivity|].
  change (String a p +:+ "") with (String a (p +:+ "")). now rewrite IH.
Qed.

Lemma translate_path_ignores_query (L : Lib) (root p q : string) :
  Str.before_first "?" p = p -> Str.before_first "#" p = p ->
  SimpleHTTPRequestHandler.translate_path L root (p +:+ "?" +:+ q)
  = SimpleHTTPRequestHandler.translate_path L root p
  /\ SimpleHTTPRequestHandler.translate_path L root (p +:+ "#" +:+ q)
     = SimpleHTTPRequestHandler.translate_path L root p.
Proof.
  intros Hq Hf. unfold SimpleHTTPRequestHandler.translate_path.
  change (p +:+ "?" +:+ q) with (p +:+ String "?" q).
  change (p +:+ "#" +:+ q) with (p +:+ String "#" q).
  rewrite (before_first_cut "?" p q Hq), Hq.
  rewrite (before_first_app "?" p _ Hq). cbn [Str.before_first].
  change (Ascii.eqb "#" "?") with false. cbv iota.
  rewrite (before_first_cut "#" p _ Hf), !Hf. split; reflexivity.
Qed.

(** X12. The query string and the fragment of the request path take no part
    in the lookup: when the path names no directory, the same request with
    [?] or [#] and anything appended to the path gets the same response. *)
Theorem query_and_fragment_are_ignored (L : Lib) (W : World) (root : string)
    (r r' : Request) (q : string) :
  r_command r' = r_command r -> r_headers r' = r_headers r ->
  Str.before_first "?" (r_path r) = r_path r ->
  Str.before_first "#" (r_path r) = r_path r ->
  r_path r' = r_path r +:+ "?" +:+ q \/ r_path r' = r_path r +:+ "#" +:+ q ->
  os.isdir W (SimpleHTTPRequestHandler.translate_path L root (r_path r)) = false ->
  CORSRequestHandler.respond L W root r' = CORSRequestHandler.respond L W root r.
Proof.
  intros Hc Hh Hq Hf Hp Hd. rewrite !respond_answer. unfold answer. rewrite Hc, Hh.
  destruct (translate_path_ignores_query L root (r_path r) q Hq Hf) as [T1 T2].
  assert (T : SimpleHTTPRequestHandler.translate_path L root (r_path r')
              = SimpleHTTPRequestHandler.translate_path L root (r_path r)).
  { destruct Hp as [-> | ->]; assumption. }
  assert (E : planned L W root (r_path r') (r_headers r)
              = planned L W root (r_path r) (r_headers r)).
  { unfold planned. now rewrite T, Hd. }
  now rewrite E.
Qed.

Lemma query_and_fragment_are_ignored_witness :
  let r := example_request "GET" "/index.html" [] in
  let r' := example_request "GET" "/index.html?v=2" [] in
  r_command r' = r_command r /\ r_headers r' = r_headers r
  /\ Str.before_first "?" (r_path r) = r_path r
  /\ Str.before_first "#" (r_path r) = r_path r
  /\ r_path r' = r_path r +:+ "?" +:+ "v=2"
  /\ os.isdir (example_world "")
       (SimpleHTTPRequestHandler.translate_path example_lib "/srv" (r_path r)) = false
  /\ CORSRequestHandler.respond example_lib (example_world "") "/srv" r'
     = CORSRequestHandler.respond example_lib (example_world "") "/srv" r.
Proof.
  cbn zeta. do 6 (split; [reflexivity|]).
  apply (query_and_fragment_are_ignored example_lib (example_world "") "/srv"
           (example_request "GET" "/index.html" [])
           (example_request "GET" "/index.html?v=2" []) "v=2");
    try reflexivity. left; reflexivity.
Defined.

(** ** The connection is closed after every response *)

Section Closing.
Context (L : Lib) (W : World).
Local Abbreviation eh := CORSRequestHandler.end_headers.

Lemma closes_seq a b : closes a -> closes b -> closes (a >> b).
Proof.
  intros Ha Hb h h' E Hc. unfold seq in E.
  destruct (a h) as [h1|] eqn:E1; [|discriminate]. cbn in E. eauto.
Qed.

(** Only a Connection field with the value keep-alive reopens the
    connection. *)
Lemma closes_send_header k v :
  String.eqb (Str.lower k) "connection" && String.eqb (Str.lower v) "keep-alive" = false ->
  closes (BaseHTTPRequestHandler.send_header k v).
Proof.
  intros Hk h h' E Hc. unfold BaseHTTPRequestHandler.send_header in E.
  destruct (String.eqb (Str.lower k) "connection");
    [destruct (String.eqb (Str.lower v) "close");
      [|destruct (String.eqb (Str.lower v) "keep-alive"); [discriminate Hk|]]|];
    injection E as <-; try reflexivity;
    now destruct (BaseHTTPRequestHandler.has_headers h).
Qed.

Lemma closes_send_response_only code message :
  closes (BaseHTTPRequestHandler.send_response_only code message).
Proof.
  intros h h' E Hc. unfold BaseHTTPRequestHandler.send_response_only in E.
  destruct (BaseHTTPRequestHandler.has_headers h); injection E as <-; assumption.
Qed.

Lemma closes_base_end_headers : closes BaseHTTPRequestHandler.end_headers.
Proof.
  intros h h' E Hc. unfold BaseHTTPRequestHandler.end_headers in E.
  destruct (BaseHTTPRequestHandler.has_headers h); [|now injection E as <-].
  destruct (_headers_buffer h); [|discriminate]. now injection E as <-.
Qed.

Lemma closes_end_headers : closes eh.
Proof.
  unfold CORSRequestHandler.end_headers, CORSRequestHandler.send_header.
  repeat apply closes_seq; try apply closes_base_end_headers;
    apply closes_send_header; reflexivity.
Qed.

Lemma closes_send_response code message :
  closes (SimpleHTTPRequestHandler.send_response L W code message).
Proof.
  unfold SimpleHTTPRequestHandler.send_response, BaseHTTPRequestHandler.send_response.
  repeat apply closes_seq; try apply closes_send_response_only;
    apply closes_send_header; reflexivity.
Qed.

Ltac closes_tac :=
  repeat first
    [ apply closes_send_response
    | apply closes_end_headers
    | apply closes_send_header; reflexivity
    | apply closes_seq ].

Lemma closes_send_error code message explain :
  closes (SimpleHTTPRequestHandler.send_error L W eh code message explain).
Proof.
  unfold SimpleHTTPRequestHandler.send_error, BaseHTTPRequestHandler.send_error.
  destruct (default ("???", "???") (BaseHTTPRequestHandler.responses code)) as [shortmsg longmsg].
  apply closes_seq; [apply closes_seq; [apply closes_seq; [apply closes_seq|]|]|].
  - apply closes_send_response.
  - apply closes_send_header. reflexivity.
  - destruct (_ && _).
    + apply closes_seq; apply closes_send_header; reflexivity.
    + intros h h' E. now injection E as <-.
  - apply closes_end_headers.
  - intros h h' E Hc. destruct (_ && _) in E; [destruct (_ && _) in E|];
      injection E as <-; assumption.
Qed.

Lemma closes_ret_none m : closes m -> closes_returning (SimpleHTTPRequestHandler.ret_none m).
Proof.
  intros Hm h x h' E Hc. unfold SimpleHTTPRequestHandler.ret_none in E.
  destruct (m h) as [h1|] eqn:E1; [|discriminate]. injection E as _ <-. eauto.
Qed.

Lemma closes_then {A : Type} m (x : A) :
  closes m -> closes_returning (fun h => m h ≫= fun h' => Some (x, h')).
Proof.
  intros Hm h y h' E Hc.
  destruct (m h) as [h1|] eqn:E1; [|discriminate]. injection E as _ <-. eauto.
Qed.

Lemma closes_send_head_file path :
  closes_returning (SimpleHTTPRequestHandler.send_head_file L W eh path).
Proof.
  intros h. unfold SimpleHTTPRequestHandler.send_head_file.
  destruct (Str.endswith path "/"); [apply closes_ret_none, closes_send_error|].
  destruct (os.open_rb W path) as [[data st_mtime]| |];
    [|apply closes_ret_none, closes_send_error|discriminate].
  destruct (datetime.in_range st_mtime); [|discriminate]. cbn [negb].
  destruct (SimpleHTTPRequestHandler.not_modified L (headers h) st_mtime).
  - apply closes_ret_none. closes_tac.
  - apply (closes_then _ (Some data)).
    closes_tac.
Qed.

Lemma closes_list_directory path :
  closes_returning (SimpleHTTPRequestHandler.list_directory L W eh path).
Proof.
  intros h x h' E Hc. unfold SimpleHTTPRequestHandler.list_directory in E.
  destruct (os.listdir W path) as [names| |];
    [|exact (closes_ret_none _ (closes_send_error _ _ _) h x h' E Hc)|discriminate].
  destruct (listing_page L _ _ _) as [encoded|]; [|discriminate].
  match type of E with
  | (?m h ≫= _) = _ =>
      assert (Hm : closes m) by closes_tac;
      destruct (m h) as [h1|] eqn:E1; [|discriminate];
      injection E as _ <-; exact (Hm h h1 E1 Hc)
  end.
Qed.

Lemma closes_send_head : closes_returning (SimpleHTTPRequestHandler.send_head L W eh).
Proof.
  intros h. unfold SimpleHTTPRequestHandler.send_head.
  destruct (os.isdir W _); [|apply closes_send_head_file].
  destruct (negb _).
  - apply closes_ret_none.
    closes_tac.
  - destruct (List.find _ _); [apply closes_send_head_file | apply closes_list_directory].
Qed.

Lemma closes_handle_one_request : closes (CORSRequestHandler.handle_one_request L W).
Proof.
  intros h h'. unfold CORSRequestHandler.handle_one_request,
    BaseHTTPRequestHandler.handle_one_request.
  rewrite attrs_lookup.
  destruct (String.eqb (command h) "OPTIONS").
  { exact (closes_seq _ _ (closes_send_response 200 (Some "ok")) closes_end_headers h h'). }
  destruct (String.eqb (command h) "GET").
  { unfold SimpleHTTPRequestHandler.do_GET. intros E Hc.
    destruct (SimpleHTTPRequestHandler.send_head L W eh h) as [[f h1]|] eqn:E1; [|discriminate].
    cbn in E. pose proof (closes_send_head h f h1 E1 Hc) as H1.
    destruct f as [source|]; [|injection E as <-; assumption].
    unfold SimpleHTTPRequestHandler.copyfile, shutil.copyfileobj in E. injection E as <-.
    clear E1. revert h1 H1. induction (Str.blocks shutil.COPY_BUFSIZE source) as [|b l IH];
      intros h1 H1; [assumption|]. cbn [fold_left]. now apply IH. }
  destruct (String.eqb (command h) "HEAD").
  { unfold SimpleHTTPRequestHandler.do_HEAD. intros E Hc.
    destruct (SimpleHTTPRequestHandler.send_head L W eh h) as [[f h1]|] eqn:E1; [|discriminate].
    cbn in E. injection E as <-. exact (closes_send_head h f h1 E1 Hc). }
  exact (closes_send_error 501 (Some _) None h h').
Qed.

End Closing.

(** X13. When the handler has answered a request, [close_connection] is
    still set, so that [handle] does not wait for another request on the
    connection: the only Connection field that the handler sends is
    [Connection: close], and none of the four fields of [end_headers] is a
    Connection field. *)
Theorem connection_closed_after_response (L : Lib) (W : World) (root : string) (r : Request)
    (h' : Handler) :
  CORSRequestHandler.handle_one_request L W (CORSRequestHandler.new root r) = Some h' ->
  close_connection h' = true.
Proof. intros E. exact (closes_handle_one_request L W _ h' E eq_refl). Qed.

Lemma connection_closed_after_response_witness :
  exists h',
    CORSRequestHandler.handle_one_request example_lib (example_world "")
      (CORSRequestHandler.new "/srv" (example_request "GET" "/does-not-exist" [])) = Some h'
    /\ response_status (wfile h') = Some 404%N
    /\ close_connection h' = true.
Proof.
  eexists. split; [vm_compute; reflexivity|]. split; [reflexivity|].
  eapply (connection_closed_after_response example_lib (example_world "") "/srv"
            (example_request "GET" "/does-not-exist" [])).
  vm_compute. reflexivity.
Defined.

(** ** Paths that [open] refuses, and the blocks of a file *)

Example blocks_examples :
  Str.blocks 4 "abcdefghij" = ["abcd"; "efgh"; "ij"]
  /\ Str.blocks 4 "abcdefgh" = ["abcd"; "efgh"]
  /\ Str.blocks 4 "abc" = ["abc"]
  /\ Str.blocks 4 "" = []
  /\ Str.blocks shutil.COPY_BUFSIZE "<h1>hi</h1>" = ["<h1>hi</h1>"].
Proof. repeat split; vm_compute; reflexivity. Qed.

(** X16. A GET or HEAD request whose translated path does not end in a
    slash and is refused by [open] with ValueError, because it has a NUL byte
    (as for [GET /%00]) or cannot be encoded for the file system, gets no
    response: [os.path.isdir] answers False, [send_head] catches OSError
    only, and the handler raises. *)
Theorem refused_path_is_not_answered (L : Lib) (W : World) (root : string) (r : Request) :
  r_command r = "GET" \/ r_command r = "HEAD" ->
  os.invalid W (SimpleHTTPRequestHandler.translate_path L root (r_path r)) = true ->
  Str.endswith (SimpleHTTPRequestHandler.translate_path L root (r_path r)) "/" = false ->
  CORSRequestHandler.respond L W root r = None.
Proof.
  intros Hc Hv Hs. rewrite respond_answer. unfold answer.
  assert (Hp : planned L W root (r_path r) (r_headers r) = None).
  { unfold planned, planned_file, os.isdir, os.open_rb. now rewrite Hv, Hs. }
  rewrite Hp. destruct Hc as [-> | ->]; reflexivity.
Qed.

Lemma refused_path_is_not_answered_witness :
  let r := example_request "GET" "/%00" [] in
  (r_command r = "GET" \/ r_command r = "HEAD")
  /\ SimpleHTTPRequestHandler.translate_path example_lib "/srv" (r_path r)
     = "/srv/" +:+ String Ascii.zero ""
  /\ os.invalid (example_world "")
       (SimpleHTTPRequestHandler.translate_path example_lib "/srv" (r_path r)) = true
  /\ Str.endswith (SimpleHTTPRequestHandler.translate_path example_lib "/srv" (r_path r)) "/"
     = false
  /\ CORSRequestHandler.respond example_lib (example_world "") "/srv" r = None.
Proof.
  cbn zeta. split; [left; reflexivity|]. split; [reflexivity|]. split; [reflexivity|].
  split; [reflexivity|].
  apply (refused_path_is_not_answered example_lib (example_world "") "/srv"
           (example_request "GET" "/%00" [])); [left; reflexivity | reflexivity | reflexivity].
Defined.



(** ** More on the main block *)


(** X15. The connections that arrive before the interrupt are answered
    once each, in their order, each by a handler of its own, whose directory
    is what [os.getcwd()] returns for the script's directory, or not at all
    when [os.getcwd()] raises; what arrives after the interrupt is never
    answered. *)
Theorem nothing_is_answered_after_the_interrupt (L : Lib) (__file__ getcwd : string)
    (before after : list event) :
  existsb is_interrupt before = false ->
  exchanges (main L __file__ getcwd true (before ++ KeyboardInterrupt :: after))
  = exchanges (main L __file__ getcwd true before)
  /\ map request (exchanges (main L __file__ getcwd true before))
     = omap event_request before
  /\ Forall2 (fun e x =>
                match e with
                | Connection W r =>
                    response x
                    = os.getcwd W (posixpath.dirname (posixpath.abspath getcwd __file__))
                      ≫= fun directory => CORSRequestHandler.respond L W directory r
                | KeyboardInterrupt => False
                end)
             before (exchanges (main L __file__ getcwd true before)).
Proof.
  intros H. rewrite !main_serving. cbn [exchanges].
  split; [now apply answers_stop|]. split; [now apply answers_requests|].
  fold (script_dir __file__ getcwd). fold (interrupted before) in H.
  induction before as [|[W r|] before IH]; cbn in *; [constructor| |discriminate].
  constructor; [reflexivity | now apply IH].
Qed.

Lemma nothing_is_answered_after_the_interrupt_witness :
  let W := example_world "" in
  let before := [Connection W (example_request "GET" "/index.html" []);
                 Connection W (example_request "POST" "/" [])] in
  let after := [Connection W (example_request "GET" "/index.html" [])] in
  existsb is_interrupt before = false
  /\ exchanges (main example_lib "/srv/server.py" "/home" true
                  (before ++ KeyboardInterrupt :: after))
     = exchanges (main example_lib "/srv/server.py" "/home" true before)
  /\ map request (exchanges (main example_lib "/srv/server.py" "/home" true before))
     = [example_request "GET" "/index.html" []; example_request "POST" "/" []].
Proof.
  cbn zeta. split; [reflexivity|].
  destruct (nothing_is_answered_after_the_interrupt example_lib "/srv/server.py" "/home"
              [Connection (example_world "") (example_request "GET" "/index.html" []);
               Connection (example_world "") (example_request "POST" "/" [])]
              [Connection (example_world "") (example_request "GET" "/index.html" [])]
              eq_refl) as (H1 & H2 & _).
  split; [exact H1 | exact H2].
Defined.

(** X18. A request is handled by itself: whatever it is answered with,
    and also when its handler raises or cannot be made, the run of the server is otherwise what
    it is without that request, with the same working directory, listening
    socket, output and exit status, and the same exchanges for the requests
    before and after it. *)
Theorem a_request_leaves_the_server_as_it_was (L : Lib) (W : World)
    (__file__ getcwd : string) (r : Request) (before after : list event) :
  existsb is_interrupt before = false ->
  exchanges (main L __file__ getcwd true (before ++ Connection W r :: after))
  = take (length before) (exchanges (main L __file__ getcwd true (before ++ after)))
    ++ {| served_root := os.getcwd W (posixpath.dirname (posixpath.abspath getcwd __file__));
          request := r;
          response :=
            os.getcwd W (posixpath.dirname (posixpath.abspath getcwd __file__))
            ≫= fun directory => CORSRequestHandler.respond L W directory r |}
    :: drop (length before) (exchanges (main L __file__ getcwd true (before ++ after)))
  /\ cwd (main L __file__ getcwd true (before ++ Connection W r :: after))
     = cwd (main L __file__ getcwd true (before ++ after))
  /\ listening (main L __file__ getcwd true (before ++ Connection W r :: after))
     = listening (main L __file__ getcwd true (before ++ after))
  /\ stdout (main L __file__ getcwd true (before ++ Connection W r :: after))
     = stdout (main L __file__ getcwd true (before ++ after))
  /\ exit_status (main L __file__ getcwd true (before ++ Connection W r :: after))
     = exit_status (main L __file__ getcwd true (before ++ after)).
Proof.
  intros Hb. fold (interrupted before) in Hb. rewrite !main_serving.
  rewrite !interrupted_app. cbn [interrupted existsb is_interrupt orb].
  fold (interrupted after). cbn [exchanges cwd listening stdout exit_status].
  repeat split.
  rewrite !answers_app by assumption. cbn [answers].
  rewrite <- (answers_length L (script_dir __file__ getcwd) before Hb).
  now rewrite take_app_length, drop_app_length.
Qed.

Lemma a_request_leaves_the_server_as_it_was_witness :
  let W := example_world "" in
  let r := example_request "GET" "/%00" [] in
  let before := [Connection W (example_request "GET" "/index.html" [])] in
  let after := [Connection W (example_request "GET" "/index.html" []); KeyboardInterrupt] in
  existsb is_interrupt before = false
  /\ map response (exchanges (main example_lib "/srv/server.py" "/home" true
                                (before ++ Connection W r :: after)))
     = [ CORSRequestHandler.respond example_lib W "/srv" (example_request "GET" "/index.html" []);
         None;
         CORSRequestHandler.respond example_lib W "/srv" (example_request "GET" "/index.html" []) ]
  /\ exit_status (main example_lib "/srv/server.py" "/home" true
                    (before ++ Connection W r :: after))
     = exit_status (main example_lib "/srv/server.py" "/home" true (before ++ after)).
Proof.
  cbn zeta. split; [reflexivity|].
  destruct (a_request_leaves_the_server_as_it_was example_lib (example_world "")
              "/srv/server.py" "/home" (example_request "GET" "/%00" [])
              [Connection (example_world "") (example_request "GET" "/index.html" [])]
              [Connection (example_world "") (example_request "GET" "/index.html" []);
               KeyboardInterrupt] eq_refl) as (H1 & _ & _ & _ & H5).
  split; [|exact H5]. rewrite H1. vm_compute. reflexivity.
Defined.
